(** * flask-warbler: the like toggle of [static/likes.js]

    The script binds one asynchronous click handler, [toggleLike], to the
    favourite button.  The handler talks to three host facilities: the DOM
    through jQuery, the HTTP client axios, and the console.  This file embeds
    the handler over an explicit model of those facilities and of the event
    loop that resumes it when a response arrives. *)

From Stdlib Require Import ZArith Ascii String.
From stdpp Require Import base option list strings gmap.

Set Warnings "-register-all".
Open Scope string_scope.
Open Scope list_scope.

(** ** JavaScript values *)

Module JS.

Local Open Scope Z_scope.

(** The values the script handles: what [JSON.parse] produces, together with
    [undefined].  A text is carried as its UTF-8 bytes.  A Number is carried
    as the text [Number::toString] gives for it (["1"], ["1.5"], ["NaN"],
    ["1e+21"]); that text determines the number, apart from the sign of zero.
    An object is a plain object as parsed from JSON: its own enumerable
    properties in order. *)
Inductive jsval : Type :=
| JUndefined
| JNull
| JBool (b : bool)
| JNum (repr : string)
| JStr (s : string)
| JArr (items : list jsval)
| JObj (props : list (string * jsval)).

Definition has_own (name : string) (props : list (string * jsval)) : bool :=
  existsb (fun p => String.eqb (fst p) name) props.

(** [ToString], as a template literal applies it; [None] is the [TypeError]
    it throws.  An array is joined with commas, [undefined] and [null] items
    giving the empty text.  A plain object gives ["[object Object]"] through
    [Object.prototype.toString], unless an own property [toString] hides that
    method: a parsed value is never callable, [valueOf] yields the object
    itself, and the conversion throws.  [ToPrimitive] without a preference,
    which [==] applies, gives the same text and throws in the same cases. *)
Fixpoint ToString (v : jsval) : option string :=
  match v with
  | JUndefined => Some "undefined"
  | JNull => Some "null"
  | JBool true => Some "true"
  | JBool false => Some "false"
  | JNum repr => Some repr
  | JStr s => Some s
  | JArr items =>
      (fix join (l : list jsval) : option string :=
         match l with
         | [] => Some ""
         | x :: r =>
             match match x with
                   | JUndefined | JNull => Some ""
                   | _ => ToString x
                   end with
             | None => None
             | Some s =>
                 match r with
                 | [] => Some s
                 | _ => match join r with
                        | None => None
                        | Some t => Some (s +:+ "," +:+ t)
                        end
                 end
             end
         end) items
  | JObj props =>
      if has_own "toString" props then None else Some "[object Object]"
  end.

(** [ToBoolean]. *)
Definition ToBoolean (v : jsval) : bool :=
  match v with
  | JUndefined | JNull => false
  | JBool b => b
  | JNum repr => negb (String.eqb repr "0" || String.eqb repr "NaN")
  | JStr s => negb (String.eqb s "")
  | JArr _ | JObj _ => true
  end.

(** *** StringToNumber

    The numeric value of a text, as [ToNumber] computes it for a String. *)

Inductive Numeric : Type :=
| NumNaN
| NumInf (negative : bool)
| NumDec (negative : bool) (mantissa : Z) (exponent : Z).
    (* the mathematical value mantissa * 10 ^ exponent, before rounding *)

(** WhiteSpace and LineTerminator characters, by the length of their UTF-8
    encoding: TAB, LF, VT, FF, CR, SP; U+00A0; U+1680, U+2000 to U+200A,
    U+2028, U+2029, U+202F, U+205F, U+3000 and U+FEFF. *)
Definition space1 (c : ascii) : bool :=
  let n := Z.of_N (N_of_ascii c) in
  ((9 <=? n) && (n <=? 13)) || (n =? 32).

Definition space2 (c1 c2 : ascii) : bool :=
  (Z.of_N (N_of_ascii c1) =? 194) && (Z.of_N (N_of_ascii c2) =? 160).

Definition space3 (c1 c2 c3 : ascii) : bool :=
  let a := Z.of_N (N_of_ascii c1) in
  let b := Z.of_N (N_of_ascii c2) in
  let c := Z.of_N (N_of_ascii c3) in
  ((a =? 225) && (b =? 154) && (c =? 128))
  || ((a =? 226) && (b =? 128)
      && (((128 <=? c) && (c <=? 138)) || (c =? 168) || (c =? 169) || (c =? 175)))
  || ((a =? 226) && (b =? 129) && (c =? 159))
  || ((a =? 227) && (b =? 128) && (c =? 128))
  || ((a =? 239) && (b =? 187) && (c =? 191)).

(** Drop the white space a text starts with. *)
Fixpoint skip_space (l : list ascii) : list ascii :=
  match l with
  | [] => []
  | c1 :: r1 =>
      if space1 c1 then skip_space r1
      else match r1 with
           | [] => l
           | c2 :: r2 =>
               if space2 c1 c2 then skip_space r2
               else match r2 with
                    | [] => l
                    | c3 :: r3 => if space3 c1 c2 c3 then skip_space r3 else l
                    end
           end
  end.

(** The same on a reversed text: drop the white space the text ends with. *)
Fixpoint skip_space_back (l : list ascii) : list ascii :=
  match l with
  | [] => []
  | c1 :: r1 =>
      if space1 c1 then skip_space_back r1
      else match r1 with
           | [] => l
           | c2 :: r2 =>
               if space2 c2 c1 then skip_space_back r2
               else match r2 with
                    | [] => l
                    | c3 :: r3 =>
                        if space3 c3 c2 c1 then skip_space_back r3 else l
                    end
           end
  end.

Definition trim (l : list ascii) : list ascii :=
  rev (skip_space_back (rev (skip_space l))).

(** The value of [c] as a digit in the given base, if it is one. *)
Definition digit_of (base : Z) (c : ascii) : option Z :=
  let n := Z.of_N (N_of_ascii c) in
  let d := if (48 <=? n) && (n <=? 57) then n - 48
           else if (97 <=? n) && (n <=? 102) then n - 87
           else if (65 <=? n) && (n <=? 70) then n - 55
           else 16 in
  if d <? base then Some d else None.

(** All of [l] read as digits of the base, most significant first. *)
Fixpoint digits_value (base : Z) (acc : Z) (l : list ascii) : option Z :=
  match l with
  | [] => Some acc
  | c :: r =>
      match digit_of base c with
      | Some d => digits_value base (acc * base + d) r
      | None => None
      end
  end.

Definition nonempty_digits (base : Z) (l : list ascii) : option Z :=
  match l with
  | [] => None
  | _ => digits_value base 0 l
  end.

(** The leading decimal digits of [l], and what follows them. *)
Fixpoint span_digits (l : list ascii) : list ascii * list ascii :=
  match l with
  | c :: r =>
      match digit_of 10 c with
      | Some _ => let '(ds, rest) := span_digits r in (c :: ds, rest)
      | None => ([], l)
      end
  | [] => ([], [])
  end.

(** ExponentPart, optional: [e] or [E], an optional sign, digits to the end. *)
Definition exponent_part (l : list ascii) : option Z :=
  match l with
  | [] => Some 0
  | c :: r =>
      if Ascii.eqb c "e" || Ascii.eqb c "E" then
        match r with
        | s :: r' =>
            if Ascii.eqb s "-" then Z.opp <$> nonempty_digits 10 r'
            else if Ascii.eqb s "+" then nonempty_digits 10 r'
            else nonempty_digits 10 r
        | [] => None
        end
      else None
  end.

(** StrUnsignedDecimalLiteral. *)
Definition unsigned_decimal (negative : bool) (l : list ascii) : Numeric :=
  if String.eqb (string_of_list_ascii l) "Infinity" then NumInf negative
  else
    let '(ip, r1) := span_digits l in
    let '(fp, r2) := match r1 with
                     | c :: r => if Ascii.eqb c "." then span_digits r
                                 else ([], r1)
                     | [] => ([], [])
                     end in
    match ip ++ fp with
    | [] => NumNaN
    | ds =>
        match digits_value 10 0 ds, exponent_part r2 with
        | Some m, Some e => NumDec negative m (e - Z.of_nat (length fp))
        | _, _ => NumNaN
        end
    end.

(** StringNumericLiteral: white space around nothing (the value 0), around
    a binary, octal or hexadecimal integer without sign, or around a decimal
    literal with an optional sign. *)
Definition StringToNumber (s : string) : Numeric :=
  match trim (list_ascii_of_string s) with
  | [] => NumDec false 0 0
  | c :: r =>
      let radix :=
        match r with
        | p :: ds =>
            if Ascii.eqb c "0" then
              if Ascii.eqb p "x" || Ascii.eqb p "X" then Some (16, ds)
              else if Ascii.eqb p "o" || Ascii.eqb p "O" then Some (8, ds)
              else if Ascii.eqb p "b" || Ascii.eqb p "B" then Some (2, ds)
              else None
            else None
        | [] => None
        end in
      match radix with
      | Some (base, ds) =>
          match nonempty_digits base ds with
          | Some n => NumDec false n 0
          | None => NumNaN
          end
      | None =>
          if Ascii.eqb c "-" then unsigned_decimal true r
          else if Ascii.eqb c "+" then unsigned_decimal false r
          else unsigned_decimal false (c :: r)
      end
  end.

(** Whether a numeric value is the Number 1.  The value is rounded to the
    nearest double, ties to even, so exactly the values from [1 - 2^-54] to
    [1 + 2^-53] are the Number 1. *)
Definition is_one (n : Numeric) : bool :=
  match n with
  | NumDec false m e =>
      if e <? 0 then
        let d := 10 ^ (- e) in
        ((2 ^ 54 - 1) * d <=? 2 ^ 54 * m) && (2 ^ 53 * m <=? (2 ^ 53 + 1) * d)
      else m * 10 ^ e =? 1
  | _ => false
  end.

(** [x == true]; [None] is the [TypeError] it throws.  The boolean operand
    becomes the Number 1; then [undefined] and [null] equal no number, a
    Boolean is compared through [ToNumber], a Number directly, a String
    through [StringToNumber], and an object through [ToPrimitive], which
    gives the text [ToString] gives or throws as it does. *)
Definition loose_eq_true (x : jsval) : option bool :=
  match x with
  | JUndefined | JNull => Some false
  | JBool b => Some b
  | JNum repr => Some (String.eqb repr "1")
  | JStr s => Some (is_one (StringToNumber s))
  | JArr _ | JObj _ =>
      match ToString x with
      | Some s => Some (is_one (StringToNumber s))
      | None => None
      end
  end.

(** Reading the property [name] of [v], for a name that is neither an index
    nor a built-in property of strings and arrays (such as [length]).
    [None] is the [TypeError] thrown on [undefined] and [null]. *)
Definition get_prop (v : jsval) (name : string) : option jsval :=
  match v with
  | JUndefined | JNull => None
  | JObj props =>
      Some (default JUndefined (snd <$> find (fun p => String.eqb (fst p) name) props))
  | _ => Some JUndefined
  end.

End JS.

Import JS.
(** ** The page: DOM elements and the jQuery calls the script makes *)

Module DOM.

(** An element node.  Nodes are named by their position in the document's
    node list, in document order; [parent] is [parentNode].  [dataset] is what
    jQuery's [.data(key)] yields for the element: the [data-key] attribute as
    jQuery reads it (a numeric text such as [42] is read as that Number). *)
Record Element : Type := {
  parent : option nat;
  classes : list string;
  dataset : gmap string jsval;
}.

Abbreviation Document := (list Element).

(** A jQuery object: the selected nodes, without repetition, in document
    order. *)
Abbreviation jQuery := (list nat).

Definition classes_of (doc : Document) (i : nat) : list string :=
  from_option classes [] (doc !! i).

Definition nodes (doc : Document) : list nat := seq 0 (length doc).

(** [$(".cls")]: every element of the document that has the class. *)
Definition select (cls : string) (doc : Document) : jQuery :=
  filter (λ i, cls ∈ classes_of doc i) (nodes doc).

(** The walk of [.closest(".cls")] from one node: the node itself if it has
    the class, else its parent, and so on up to the root.  [fuel] bounds the
    number of nodes visited. *)
Fixpoint closest_from (fuel : nat) (doc : Document) (cls : string) (i : nat)
  : option nat :=
  match fuel with
  | O => None
  | S fuel' =>
      match doc !! i with
      | None => None
      | Some e =>
          if decide (cls ∈ classes e) then Some i
          else match parent e with
               | Some p => closest_from fuel' doc cls p
               | None => None
               end
      end
  end.

Definition closest_node (doc : Document) (cls : string) (i : nat) : option nat :=
  closest_from (length doc) doc cls i.

(** [.closest(".cls")] on a jQuery object: the closest match of each of its
    nodes, each once, in document order. *)
Definition closest (cls : string) (js : jQuery) (doc : Document) : jQuery :=
  filter (λ i, Exists (λ j, closest_node doc cls j = Some i) js) (nodes doc).

(** [.data(key)]: the value for the first node of the object; [undefined]
    for an empty object or when the node carries no such datum. *)
Definition data (key : string) (js : jQuery) (doc : Document) : jsval :=
  match js with
  | [] => JUndefined
  | i :: _ => default JUndefined (doc !! i ≫= λ e, dataset e !! key)
  end.

(** jQuery splits a class argument at white space (space, TAB, CR, LF, FF). *)
Definition is_class_sep (c : ascii) : bool :=
  let n := N_of_ascii c in
  (n =? 32)%N || (n =? 9)%N || (n =? 13)%N || (n =? 10)%N || (n =? 12)%N.

Fixpoint split_classes (cur : string) (s : string) : list string :=
  match s with
  | EmptyString => match cur with EmptyString => [] | _ => [cur] end
  | String c r =>
      if is_class_sep c then
        match cur with
        | EmptyString => split_classes EmptyString r
        | _ => cur :: split_classes EmptyString r
        end
      else split_classes (cur +:+ String c EmptyString) r
  end.

Definition classesToArray (value : string) : list string :=
  split_classes EmptyString value.

(** Every occurrence of each named class goes. *)
Definition remove_tokens (names cur : list string) : list string :=
  filter (λ c, c ∉ names) cur.

(** Each named class is appended unless already there. *)
Definition add_tokens (names cur : list string) : list string :=
  fold_left (λ acc n, if decide (n ∈ acc) then acc else acc ++ [n]) names cur.

Definition with_classes (f : list string → list string) (e : Element) : Element :=
  {| parent := parent e; classes := f (classes e); dataset := dataset e |}.

(** Apply [f] to the class list of every node of the jQuery object. *)
Definition each_class (f : list string → list string) (js : jQuery)
    (doc : Document) : Document :=
  imap (λ i e, if decide (i ∈ js) then with_classes f e else e) doc.

(** [.removeClass(value)] and [.addClass(value)]. *)
Definition removeClass (value : string) (js : jQuery) (doc : Document) : Document :=
  each_class (remove_tokens (classesToArray value)) js doc.

Definition addClass (value : string) (js : jQuery) (doc : Document) : Document :=
  each_class (add_tokens (classesToArray value)) js doc.

(** In a document every parent comes before its children. *)
Definition well_formed (doc : Document) : Prop :=
  ∀ i e p, doc !! i = Some e → parent e = Some p → p < i.

(** [a] is [i] or one of its ancestors. *)
Inductive ancestor_or_self (doc : Document) : nat → nat → Prop :=
| anc_self i e : doc !! i = Some e → ancestor_or_self doc i i
| anc_up i e p a :
    doc !! i = Some e → parent e = Some p →
    ancestor_or_self doc p a → ancestor_or_self doc i a.

(** [f] is the first node with the class on the way up from [i], [i]
    included. *)
Inductive nearest (doc : Document) (cls : string) : nat → nat → Prop :=
| nearest_here i e :
    doc !! i = Some e → cls ∈ classes e → nearest doc cls i i
| nearest_up i e p f :
    doc !! i = Some e → cls ∉ classes e → parent e = Some p →
    nearest doc cls p f → nearest doc cls i f.

End DOM.

Import DOM.

(** ** The host: console, axios and the state the handler runs in *)

Module Host.

(** The two lines of the client: releases 0.x and releases 1.x.  They differ
    in what they do with a header whose value is [undefined], [null] or
    [false], and in which header values they convert to text. *)
Inductive Axios : Type := Axios0 | Axios1.

(** An HTTP request as it goes out: the headers are the texts handed to the
    browser for it. *)
Record Request : Type := {
  method : string;
  url : string;
  body : option jsval;
  headers : gmap string string;
}.

Inductive Error : Type :=
| AxiosError (message : string)
| TypeError (message : string).

(** What the script does to its host, in program order. *)
Inductive Op : Type :=
| OpPreventDefault (evt : nat)
| OpLog (args : list jsval)
| OpSetHeader (name : string) (value : jsval)
| OpRequest (id : nat) (req : Request)
| OpRemoveClass (value : string) (js : jQuery)
| OpAddClass (value : string) (js : jQuery).

Record World : Type := {
  client : Axios;                  (* the axios the page has loaded *)
  document : Document;
  common : gmap string jsval;      (* axios.defaults.headers.common *)
  ops : list Op;                   (* oldest first *)
}.

Definition request_of (op : Op) : option Request :=
  match op with
  | OpRequest _ req => Some req
  | _ => None
  end.

(** The requests sent so far, oldest first. *)
Definition requests (w : World) : list Request := omap request_of (ops w).

Definition default_prevented (evt : nat) (w : World) : Prop :=
  OpPreventDefault evt ∈ ops w.

(** Host actions thread the world. *)
Definition Host (A : Type) : Type := World → A * World.

#[global] Instance host_ret : MRet Host := λ A a w, (a, w).
#[global] Instance host_bind : MBind Host :=
  λ A B k c w, let '(a, w') := c w in k a w'.

Definition perform (op : Op) (change : World → World) : Host unit :=
  λ w, let w' := change w in
       (tt, {| client := client w'; document := document w';
               common := common w'; ops := ops w ++ [op] |}).

Definition console_log (args : list jsval) : Host unit :=
  perform (OpLog args) id.

Definition set_common_header (name : string) (value : jsval) : Host unit :=
  perform (OpSetHeader name value)
    (λ w, {| client := client w; document := document w;
             common := <[name := value]> (common w); ops := ops w |}).

(** Header names are compared without regard to case. *)
Definition lower (c : ascii) : ascii :=
  let n := N_of_ascii c in
  if ((65 <=? n) && (n <=? 90))%N then ascii_of_N (n + 32) else c.

Fixpoint lowercase (s : string) : string :=
  match s with
  | EmptyString => EmptyString
  | String c r => String (lower c) (lowercase r)
  end.

Definition is_content_type (name : string) : bool :=
  String.eqb (lowercase name) "content-type".

(** The text a default header goes out with, if it goes out.  Releases 1.x
    leave out a header whose value is [undefined], [null] or [false]; every
    other value goes out as its text. *)
Definition header_sent (line : Axios) (value : jsval) : option string :=
  match line, value with
  | Axios1, (JUndefined | JNull | JBool false) => None
  | _, _ => ToString value
  end.

(** The default headers whose value is converted to text for a request
    without body: all of them in releases 1.x, all but [Content-Type], which
    such a request does not carry, in releases 0.x. *)
Definition converted (line : Axios) (name : string) : bool :=
  match line with
  | Axios1 => true
  | Axios0 => negb (is_content_type name)
  end.

(** A request can go out when every conversion it needs succeeds. *)
Definition sendable (line : Axios) (defaults : gmap string jsval) : Prop :=
  map_Forall (λ name value,
                converted line name = true → is_Some (ToString value)) defaults.

(** The headers of a request without body. *)
Definition sent_headers (line : Axios) (defaults : gmap string jsval)
  : gmap string string :=
  map_imap (λ name value,
              if is_content_type name then None else header_sent line value)
    defaults.

(** [axios.post(url)] with no data.  The request goes out with the client's
    common default headers and the call returns a promise, named here by the
    number of the request; or a header value cannot be converted, nothing
    goes out and the promise returned is rejected already. *)
Definition axios_post (target_url : string) : Host (Error + nat) :=
  λ w, if decide (sendable (client w) (common w)) then
         let promise := length (requests w) in
         (inr promise,
          snd (perform
                 (OpRequest promise
                    {| method := "POST"; url := target_url; body := None;
                       headers := sent_headers (client w) (common w) |})
                 id w))
       else (inl (TypeError "Cannot convert object to primitive value"), w).



Definition jq_closest (cls : string) (js : jQuery) : Host jQuery :=
  λ w, (closest cls js (document w), w).

Definition jq_data (key : string) (js : jQuery) : Host jsval :=
  λ w, (data key js (document w), w).

Definition on_document (f : Document → Document) (w : World) : World :=
  {| client := client w; document := f (document w); common := common w;
     ops := ops w |}.

Definition jq_removeClass (value : string) (js : jQuery) : Host jQuery :=
  λ w, (js, snd (perform (OpRemoveClass value js)
                   (on_document (removeClass value js)) w)).

Definition jq_addClass (value : string) (js : jQuery) : Host jQuery :=
  λ w, (js, snd (perform (OpAddClass value js)
                   (on_document (addClass value js)) w)).

End Host.

Import Host.

(** ** The script *)

(** The event object handed to the listener. *)
Record Event : Type := { evt_id : nat; target : nat }.

Definition preventDefault (evt : Event) : Host unit :=
  perform (OpPreventDefault (evt_id evt)) id.

(** The module-scoped constants of the script. *)
Definition BASE_URL : string := "http://localhost:5001/api".

Record Script : Type := { favButton : jQuery; favIcon : jQuery }.

(** Loading the script evaluates the two selections, once. *)
Definition load (doc : Document) : Script :=
  {| favButton := select "fav-button" doc; favIcon := select "fav-icon" doc |}.

(** How the awaited promise settles, and how the handler's own promise does. *)
Inductive Settled : Type :=
| Fulfilled (resp_data : jsval)      (* the [data] of the axios response *)
| Rejected (reason : Error).

Inductive Completion : Type :=
| Returned
| Threw (reason : Error).


(** A handler parked at its [await]. *)
Record Suspended : Type := {
  awaiting : nat;
  resume : Settled → Host Completion;
}.

(** What a call of the handler comes to: it parks at its [await], or it has
    thrown before. *)
Inductive Called : Type :=
| Parked (s : Suspended)
| Failed (reason : Error).

Definition conversion_error : Error :=
  TypeError "Cannot convert object to primitive value".

(** The body of [toggleLike] after the [await]. *)
Definition toggleLike_after (M : Script) (settled : Settled) : Host Completion :=
  match settled with
  | Rejected reason => mret (Threw reason)
  | Fulfilled resp_data =>
      match get_prop resp_data "favorited" with
      | None => mret (Threw (TypeError "Cannot read properties of undefined"))
      | Some favorited =>
          match loose_eq_true favorited with
          | None => mret (Threw conversion_error)
          | Some true =>
              js ← jq_removeClass "bi-star" (favIcon M);
              jq_addClass "bi-star-fill text-warning" js;;
              mret Returned
          | Some false =>
              js ← jq_removeClass "bi-star-fill text-warning" (favIcon M);
              jq_addClass "bi-star" js;;
              mret Returned
          end
      end
  end.

(** [toggleLike(evt)], up to the [await]. *)
Definition toggleLike (M : Script) (evt : Event) : Host Called :=
  preventDefault evt;;
  console_log [JStr "This was toggled"];;
  form ← jq_closest "like-form" [target evt];
  messageId ← jq_data "message-id" form;
  csrf_token ← jq_data "csrf" (favButton M);
  console_log [JStr "This is the csrf:"; csrf_token];;
  console_log [JStr "This is messageId"; messageId];;
  set_common_header "X-CSRFToken" csrf_token;;
  match ToString messageId with
  | None => mret (Failed conversion_error)
  | Some id =>
      promise ← axios_post (BASE_URL +:+ "/messages/" +:+ id +:+ "/like");
      match promise with
      | inl reason => mret (Failed reason)
      | inr p => mret (Parked {| awaiting := p; resume := toggleLike_after M |})
      end
  end.

(** ** The event loop *)

(** The page's tasks.  [$favButton.on("click", toggleLike)] makes jQuery call
    the listener with the event of a click that reaches a favourite button;
    the other task is the settling of a request's promise, which resumes the
    handler parked on it. *)
Inductive Input : Type :=
| Click (evt : Event)
| Settle (id : nat) (outcome : Settled).

Record Loop : Type := {
  world : World;
  suspended : list Suspended;
  unhandled : list Error;       (* rejections nobody handles *)
}.

(** The first handler waiting for promise [id], and the others. *)
Fixpoint take_waiting (id : nat) (l : list Suspended)
  : option (Suspended * list Suspended) :=
  match l with
  | [] => None
  | s :: r =>
      if decide (awaiting s = id) then Some (s, r)
      else match take_waiting id r with
           | Some (s', r') => Some (s', s :: r')
           | None => None
           end
  end.

Definition step (M : Script) (L : Loop) (i : Input) : Loop :=
  match i with
  | Click evt =>
      let '(c, w) := toggleLike M evt (world L) in
      match c with
      | Parked s =>
          {| world := w; suspended := suspended L ++ [s];
             unhandled := unhandled L |}
      | Failed reason =>
          {| world := w; suspended := suspended L;
             unhandled := unhandled L ++ [reason] |}
      end
  | Settle id outcome =>
      match take_waiting id (suspended L) with
      | None => L
      | Some (s, rest) =>
          let '(c, w) := resume s outcome (world L) in
          {| world := w; suspended := rest;
             unhandled := match c with
                          | Returned => unhandled L
                          | Threw reason => unhandled L ++ [reason]
                          end |}
      end
  end.

Definition run (M : Script) (L : Loop) (inputs : list Input) : Loop :=
  fold_left (step M) inputs L.

(** The common default headers the client ships. *)
Definition shipped : gmap string jsval :=
  {[ "Accept" := JStr "application/json, text/plain, */*" ]}.

(** The page as loaded, with the client of the given line. *)
Definition start (line : Axios) (doc : Document) : Loop :=
  {| world := {| client := line; document := doc; common := shipped;
                 ops := [] |};
     suspended := []; unhandled := [] |}.

(** ** Delivery of clicks *)

(** The nodes a click on [i] passes while it bubbles: [i], its parent, and so
    on up to the root. *)
Fixpoint path_from (fuel : nat) (doc : Document) (i : nat) : list nat :=
  match fuel with
  | O => []
  | S fuel' =>
      match doc !! i with
      | None => []
      | Some e =>
          i :: match parent e with
               | Some p => path_from fuel' doc p
               | None => []
               end
      end
  end.

Definition propagation_path (doc : Document) (i : nat) : list nat :=
  path_from (length doc) doc i.

(** [$favButton.on("click", toggleLike)] binds the listener to every node of
    the selection; these are the bound nodes a click on [i] passes. *)
Definition bound_on_path (M : Script) (doc : Document) (i : nat) : list nat :=
  filter (λ a, a ∈ favButton M) (propagation_path doc i).

(** A click on the page: the listener is called once for every bound node
    the event passes. *)
Definition dispatch (M : Script) (evt : Event) (L : Loop) : Loop :=
  fold_left (λ L' _, step M L' (Click evt))
    (bound_on_path M (document (world L)) (target evt)) L.

(** ** Vocabulary of the statements *)

(** The icon shows the starred state, or the unstarred one. *)
Definition starred (cs : list string) : Prop :=
  "bi-star-fill" ∈ cs ∧ "text-warning" ∈ cs ∧ ("bi-star" ∉ cs).

Definition unstarred (cs : list string) : Prop :=
  "bi-star" ∈ cs ∧ ("bi-star-fill" ∉ cs) ∧ ("text-warning" ∉ cs).

(** What the icon shows for a verdict of [favorited == true]. *)
Definition shows (verdict : bool) (cs : list string) : Prop :=
  if verdict then starred cs else unstarred cs.

(** What one call of the handler reads from the page. *)
Definition message_id_of (evt : Event) (w : World) : jsval :=
  data "message-id" (closest "like-form" [target evt] (document w)) (document w).

Definition csrf_of (M : Script) (w : World) : jsval :=
  data "csrf" (favButton M) (document w).

(** The request it sends, if it gets that far: the message id must convert
    to text, and so must the default headers, the token among them. *)
Definition toggle_request (M : Script) (evt : Event) (w : World)
  : option Request :=
  match ToString (message_id_of evt w) with
  | None => None
  | Some id =>
      let defaults := <["X-CSRFToken" := csrf_of M w]> (common w) in
      if decide (sendable (client w) defaults) then
        Some {| method := "POST";
                url := BASE_URL +:+ "/messages/" +:+ id +:+ "/like";
                body := None;
                headers := sent_headers (client w) defaults |}
      else None
  end.

(** The class edits of the two branches. *)
Definition star (js : jQuery) (doc : Document) : Document :=
  addClass "bi-star-fill text-warning" js (removeClass "bi-star" js doc).

Definition unstar (js : jQuery) (doc : Document) : Document :=
  addClass "bi-star" js (removeClass "bi-star-fill text-warning" js doc).

(** The class edits a response with this verdict performs, in order. *)
Definition edits (M : Script) (verdict : bool) : list Op :=
  if verdict then
    [OpRemoveClass "bi-star" (favIcon M);
     OpAddClass "bi-star-fill text-warning" (favIcon M)]
  else
    [OpRemoveClass "bi-star-fill text-warning" (favIcon M);
     OpAddClass "bi-star" (favIcon M)].


(** The loops the script gives rise to: every parked handler is this
    handler, waiting for a request that has been sent; the page keeps its
    nodes and their data. *)
Definition script_loop (M : Script) (doc0 : Document) (L : Loop) : Prop :=
  Forall (λ s, resume s = toggleLike_after M
               ∧ awaiting s < length (requests (world L))) (suspended L)
  ∧ (∀ key js, data key js (document (world L)) = data key js doc0)
  ∧ (∀ i, is_Some (document (world L) !! i) ↔ is_Some (doc0 !! i)).

(** The three classes the handler edits. *)
Definition icon_classes : list string :=
  ["bi-star"; "bi-star-fill"; "text-warning"].

(** The classes a response with this verdict adds. *)
Definition verdict_classes (verdict : bool) : list string :=
  if verdict then ["bi-star-fill"; "text-warning"] else ["bi-star"].

(** [e] is [e0] up to the three icon classes. *)
Definition same_node (e0 e : Element) : Prop :=
  parent e = parent e0 ∧ dataset e = dataset e0
  ∧ ∀ c, c ∉ icon_classes → (c ∈ classes e ↔ c ∈ classes e0).

(** [doc] is [doc0] up to the three icon classes of the nodes of [js]. *)
Definition same_page (js : jQuery) (doc0 doc : Document) : Prop :=
  length doc = length doc0
  ∧ ∀ i e0, doc0 !! i = Some e0 →
            ∃ e, doc !! i = Some e ∧ same_node e0 e ∧ (i ∉ js → e = e0).

(** The events of the clicks among the inputs, in order. *)
Definition click_of (i : Input) : option Event :=
  match i with
  | Click evt => Some evt
  | Settle _ _ => None
  end.

Definition clicks (inputs : list Input) : list Event := omap click_of inputs.


(** What has been written to the console, oldest first. *)
Definition log_of (op : Op) : option (list jsval) :=
  match op with
  | OpLog args => Some args
  | _ => None
  end.

Definition console (w : World) : list (list jsval) := omap log_of (ops w).

(** The payload is an object without the field, or no object at all (a text,
    a number, a Boolean, an array). *)
Definition lacks_favorited (resp_data : jsval) : Prop :=
  match resp_data with
  | JUndefined | JNull => False
  | JObj props => ∀ v, ("favorited", v) ∉ props
  | _ => True
  end.

(** The lines one call prints on the freshly loaded page [doc0]. *)
Definition printed (M : Script) (line : Axios) (doc0 : Document) (evt : Event)
  : list (list jsval) :=
  [[JStr "This was toggled"];
   [JStr "This is the csrf:"; csrf_of M (world (start line doc0))];
   [JStr "This is messageId"; message_id_of evt (world (start line doc0))]].

(** The loops in which a call does what it does on the freshly loaded
    page. *)
Definition fresh_like (M : Script) (line : Axios) (doc0 : Document) (L : Loop)
  : Prop :=
  client (world L) = line
  ∧ script_loop M doc0 L
  ∧ same_page (favIcon M) doc0 (document (world L))
  ∧ <["X-CSRFToken" := data "csrf" (favButton M) doc0]> (common (world L))
    = <["X-CSRFToken" := data "csrf" (favButton M) doc0]> shipped.

(** ** A sample page *)

(** A page with two like forms, each wrapping a button and its icon:
    node 0 the body; 1 a form for message 42, 2 its button, 3 its icon;
    4 a form for message 7, 5 its button, 6 its icon; 7 a stray link. *)
Definition page : Document :=
  [ {| parent := None; classes := []; dataset := ∅ |};
    {| parent := Some 0; classes := ["like-form"];
       dataset := {[ "message-id" := JNum "42" ]} |};
    {| parent := Some 1; classes := ["btn"; "fav-button"];
       dataset := {[ "csrf" := JStr "tok-A" ]} |};
    {| parent := Some 2; classes := ["fav-icon"; "bi"; "bi-star"]; dataset := ∅ |};
    {| parent := Some 0; classes := ["like-form"];
       dataset := {[ "message-id" := JNum "7" ]} |};
    {| parent := Some 4; classes := ["btn"; "fav-button"];
       dataset := {[ "csrf" := JStr "tok-B" ]} |};
    {| parent := Some 5; classes := ["fav-icon"; "bi"; "bi-star-fill"; "text-warning"];
       dataset := ∅ |};
    {| parent := Some 0; classes := ["nav-link"]; dataset := ∅ |} ].

(** A page whose only like form carries a message id that is an object with
    an own [toString], as [data-message-id='{"toString":1}'] gives it:
    node 0 the form, 1 its button, 2 its icon. *)
Definition odd_page : Document :=
  [ {| parent := None; classes := ["like-form"];
       dataset := {[ "message-id" := JObj [("toString", JNum "1")] ]} |};
    {| parent := Some 0; classes := ["fav-button"];
       dataset := {[ "csrf" := JStr "tok" ]} |};
    {| parent := Some 1; classes := ["fav-icon"; "bi-star"]; dataset := ∅ |} ].

(** ** Sample runs *)

Example page_select : select "fav-icon" page = [3; 6].
Proof. vm_compute. reflexivity. Qed.

Example page_closest :
  closest "like-form" [6] page = [4] ∧ closest "like-form" [7] page = [].
Proof. vm_compute. split; reflexivity. Qed.

Example page_data :
  data "message-id" (closest "like-form" [3] page) page = JNum "42".
Proof. vm_compute. reflexivity. Qed.

Example page_classes :
  classes_of (addClass "bi-star-fill text-warning"
                (select "fav-icon" page)
                (removeClass "bi-star" (select "fav-icon" page) page)) 3
  = ["fav-icon"; "bi"; "bi-star-fill"; "text-warning"].
Proof. vm_compute. reflexivity. Qed.

(** [x == true] on sample values, as a JavaScript engine evaluates it. *)
Example loose_samples :
  map loose_eq_true
    [JNum "1"; JStr "1"; JStr "yes"; JStr "true"; JStr "01"; JStr " 1.0 ";
     JStr "0x1"; JStr "1e0"; JStr "10e-1"; JStr ".1e1"; JStr "1."; JStr "+1";
     JStr "-1"; JStr ""; JStr "."; JStr "1e"; JStr "+0x1"; JStr "2";
     JArr [JNum "1"]; JArr [JArr [JStr "1"]]; JObj []; JBool true; JNum "2";
     JStr "1.00000000000000001"; JStr "1.001"; JStr "0.99999999999999999";
     JStr "Infinity"; JStr "1 1"]
  = map Some
      [true; true; false; false; true; true;
       true; true; true; true; true; true;
       false; false; false; false; false; false;
       true; true; false; true; false;
       true; false; true;
       false; false].
Proof. vm_compute. reflexivity. Qed.

(** Where a conversion throws: an object with an own [toString], alone or
    inside an array. *)
Example throwing_samples :
  loose_eq_true (JObj [("toString", JNum "1")]) = None
  ∧ loose_eq_true (JArr [JObj [("toString", JNum "1")]]) = None
  ∧ ToString (JObj [("toString", JNum "1")]) = None
  ∧ ToString (JObj [("valueOf", JNum "1")]) = Some "[object Object]"
  ∧ ToString (JArr [JNum "1"; JNull; JArr [JStr "a"; JStr "b"]]) = Some "1,,a,b".
Proof. vm_compute. repeat split; reflexivity. Qed.

(** White space beyond ASCII is trimmed too: U+2003 before the digit, U+FEFF
    after it. *)
Example wide_space_sample :
  loose_eq_true
    (JStr (String "226" (String "128" (String "131"
             (String "1" (String "239" (String "187" (String "191" ""))))))))
  = Some true.
Proof. vm_compute. reflexivity. Qed.


(** Two clicks, the second outside any like form; the second response
    arrives first and the first request fails. *)
Example page_run :
  let L := run (load page) (start Axios1 page)
             [Click {| evt_id := 0; target := 6 |};
              Click {| evt_id := 1; target := 7 |};
              Settle 1 (Fulfilled (JObj [("favorited", JBool true)]));
              Settle 0 (Rejected (AxiosError "Network Error"))] in
  map url (requests (world L))
  = ["http://localhost:5001/api/messages/7/like";
     "http://localhost:5001/api/messages/undefined/like"]
  ∧ map classes (document (world L))
    = [[]; ["like-form"]; ["btn"; "fav-button"];
       ["fav-icon"; "bi"; "bi-star-fill"; "text-warning"]; ["like-form"];
       ["btn"; "fav-button"];
       ["fav-icon"; "bi"; "bi-star-fill"; "text-warning"]; ["nav-link"]]
  ∧ unhandled L = [AxiosError "Network Error"]
  ∧ suspended L = [].
Proof. vm_compute. repeat split; reflexivity. Qed.

(** A message id that cannot be converted: the call suppresses the default
    action and stores the token, then throws; nothing is sent. *)
Example odd_page_run :
  let L := run (load odd_page) (start Axios1 odd_page)
             [Click {| evt_id := 0; target := 2 |}] in
  requests (world L) = []
  ∧ suspended L = []
  ∧ unhandled L = [conversion_error]
  ∧ common (world L) !! "X-CSRFToken" = Some (JStr "tok").
Proof. vm_compute. repeat split; reflexivity. Qed.

(** ** Facts about the page model *)

Section DomFacts.

Implicit Types (doc : Document) (js : jQuery) (cls : string) (i f : nat).

Lemma classes_of_lookup doc i e :
  doc !! i = Some e → classes_of doc i = classes e.
Proof. unfold classes_of. by intros ->. Qed.

Lemma classes_of_elem doc i c :
  c ∈ classes_of doc i → ∃ e, doc !! i = Some e ∧ c ∈ classes e.
Proof.
  unfold classes_of. destruct (doc !! i) as [e|]; simpl.
  - eauto.
  - by intros ?%elem_of_nil.
Qed.

(** A selection holds exactly the nodes that have the class. *)
Lemma elem_of_select cls doc i :
  i ∈ select cls doc ↔ cls ∈ classes_of doc i.
Proof.
  unfold select, nodes. rewrite list_elem_of_filter, elem_of_seq.
  split; [tauto|]. intros H. split; [done|].
  apply classes_of_elem in H as (e & He & _).
  apply lookup_lt_Some in He. lia.
Qed.

Lemma select_NoDup cls doc : NoDup (select cls doc).
Proof. apply NoDup_filter, NoDup_seq. Qed.

(** The walk only ever answers a node that has the class and lies on the
    path from the start to the root. *)
Lemma closest_from_sound fuel doc cls i f :
  closest_from fuel doc cls i = Some f →
  ancestor_or_self doc i f ∧ cls ∈ classes_of doc f.
Proof.
  revert i. induction fuel as [|fuel IH]; intros i; simpl; [done|].
  destruct (doc !! i) as [e|] eqn:He; [|done].
  destruct (decide (cls ∈ classes e)) as [Hc|Hc].
  - intros [= <-]. split; [by econstructor|].
    by rewrite (classes_of_lookup _ _ _ He).
  - destruct (parent e) as [p|] eqn:Hp; [|done].
    intros [Ha Hf]%IH. split; [|done]. by eapply anc_up.
Qed.

(** In a well-formed document the fuel of [closest_node] is enough: the
    walk finds a match whenever the path to the root has one. *)
Lemma closest_from_complete doc cls :
  well_formed doc →
  ∀ fuel i a, i < fuel → ancestor_or_self doc i a →
              cls ∈ classes_of doc a → is_Some (closest_from fuel doc cls i).
Proof.
  intros Hwf. induction fuel as [|fuel IH]; intros i a Hlt Ha Hc; [lia|].
  simpl. destruct Ha as [i e He | i e p a He Hp Ha].
  - rewrite He. rewrite (classes_of_lookup _ _ _ He) in Hc.
    by rewrite decide_True.
  - rewrite He. destruct (decide (cls ∈ classes e)); [done|].
    rewrite Hp. apply (IH p a); [|done..].
    specialize (Hwf i e p He Hp). lia.
Qed.

Lemma closest_node_complete doc cls i a :
  well_formed doc → ancestor_or_self doc i a → cls ∈ classes_of doc a →
  is_Some (closest_node doc cls i).
Proof.
  intros Hwf Ha Hc. unfold closest_node.
  eapply closest_from_complete; [done| |done..].
  destruct Ha as [i e He | i e ? ? He _ _]; by apply lookup_lt_Some in He.
Qed.

(** The walk answers the nearest node with the class, and in a well-formed
    document it answers whenever there is one. *)
Lemma closest_from_nearest fuel doc cls i f :
  closest_from fuel doc cls i = Some f → nearest doc cls i f.
Proof.
  revert i. induction fuel as [|fuel IH]; intros i; simpl; [done|].
  destruct (doc !! i) as [e|] eqn:He; [|done].
  destruct (decide (cls ∈ classes e)) as [Hc|Hc].
  - intros [= <-]. by eapply nearest_here.
  - destruct (parent e) as [p|] eqn:Hp; [|done].
    intros Hf%IH. by eapply nearest_up.
Qed.

Lemma closest_node_nearest doc cls i f :
  well_formed doc →
  closest_node doc cls i = Some f ↔ nearest doc cls i f.
Proof.
  intros Hwf. split; [apply closest_from_nearest|].
  unfold closest_node. intros Hn.
  assert (Hlt : i < length doc).
  { destruct Hn as [i e He _ | i e ? ? He _ _ _]; by apply lookup_lt_Some in He. }
  revert Hlt. generalize (length doc) as fuel. intros fuel. revert i Hn.
  induction fuel as [|fuel IH]; intros i Hn Hlt; [lia|].
  simpl. destruct Hn as [i e He Hc | i e p f He Hc Hp Hn].
  - rewrite He. by rewrite decide_True.
  - rewrite He. rewrite decide_False by done. rewrite Hp.
    apply IH; [done|]. specialize (Hwf i e p He Hp). lia.
Qed.


(** [$(node).closest(".cls")] holds the one node the walk answers, or
    nothing. *)
Lemma closest_single cls i doc :
  closest cls [i] doc = from_option (λ f, [f]) [] (closest_node doc cls i).
Proof.
  unfold closest, nodes.
  assert (Hin : ∀ x, x ∈ filter (λ x, Exists (λ j, closest_node doc cls j = Some x) [i])
                      (seq 0 (length doc)) ↔ closest_node doc cls i = Some x).
  { intros x. rewrite list_elem_of_filter, elem_of_seq, Exists_cons, Exists_nil.
    split; [tauto|]. intros Hx. split; [tauto|].
    apply closest_from_sound in Hx as [_ (e & He & _)%classes_of_elem].
    apply lookup_lt_Some in He. lia. }
  assert (Hnd : NoDup (filter (λ x, Exists (λ j, closest_node doc cls j = Some x) [i])
                         (seq 0 (length doc)))) by apply NoDup_filter, NoDup_seq.
  destruct (filter _ _) as [|a l]; destruct (closest_node doc cls i) as [f|];
    simpl.
  - assert (f ∈ @nil nat) as Hf by (by apply Hin). by apply elem_of_nil in Hf.
  - done.
  - assert (Some f = Some a) as [= ->] by (apply Hin; left).
    destruct l as [|b l]; [done|].
    assert (Some a = Some b) as [= <-] by (apply Hin; right; left).
    apply NoDup_cons in Hnd as [Hnd _]. destruct Hnd. left.
  - assert (None = Some a) by (apply Hin; left). done.
Qed.

Lemma elem_of_remove_tokens names cur c :
  c ∈ remove_tokens names cur ↔ c ∈ cur ∧ c ∉ names.
Proof. unfold remove_tokens. rewrite list_elem_of_filter. tauto. Qed.

Lemma elem_of_add_tokens names cur c :
  c ∈ add_tokens names cur ↔ c ∈ cur ∨ c ∈ names.
Proof.
  unfold add_tokens. revert cur.
  induction names as [|n names IH]; intros cur; simpl.
  - rewrite elem_of_nil. tauto.
  - rewrite IH, elem_of_cons. destruct (decide (n ∈ cur)) as [Hn|Hn].
    + split; [tauto|]. intros [?|[->|?]]; tauto.
    + rewrite elem_of_app, list_elem_of_singleton. tauto.
Qed.

Lemma lookup_each_class g js doc i :
  each_class g js doc !! i
  = (λ e, if decide (i ∈ js) then with_classes g e else e) <$> doc !! i.
Proof. unfold each_class. by rewrite list_lookup_imap. Qed.

Lemma length_each_class g js doc : length (each_class g js doc) = length doc.
Proof. unfold each_class. by rewrite length_imap. Qed.

(** A class edit touches the class lists of the selected nodes only, and
    no [dataset] at all. *)
Lemma lookup_each_class_other g js doc i :
  i ∉ js → each_class g js doc !! i = doc !! i.
Proof.
  intros Hi. rewrite lookup_each_class.
  destruct (doc !! i); simpl; [|done]. by rewrite decide_False.
Qed.

Lemma classes_of_each_class g js doc i e :
  doc !! i = Some e → i ∈ js →
  classes_of (each_class g js doc) i = g (classes e).
Proof.
  intros He Hi. unfold classes_of. rewrite lookup_each_class, He. simpl.
  by rewrite decide_True.
Qed.

Lemma data_each_class key js' g js doc :
  data key js' (each_class g js doc) = data key js' doc.
Proof.
  unfold data. destruct js' as [|i _]; [done|].
  rewrite lookup_each_class. destruct (doc !! i) as [e|]; [|done]. simpl.
  by destruct (decide (i ∈ js)).
Qed.

End DomFacts.

(** ** Facts about the handler *)

Section HandlerFacts.

Context (M : Script).
Implicit Types (w : World) (evt : Event) (doc : Document).

Lemma requests_app w l :
  omap request_of (ops w ++ l) = requests w ++ omap request_of l.
Proof. unfold requests. apply omap_app. Qed.

(** The handler up to its [await], in one step: it always suppresses the
    default action, prints its three lines and stores the token; then it
    sends its request and parks, or throws. *)
Lemma toggleLike_run evt w :
  toggleLike M evt w
  = (match toggle_request M evt w with
     | Some _ => Parked {| awaiting := length (requests w);
                           resume := toggleLike_after M |}
     | None => Failed conversion_error
     end,
     {| client := client w;
        document := document w;
        common := <["X-CSRFToken" := csrf_of M w]> (common w);
        ops := ops w ++
               [OpPreventDefault (evt_id evt);
                OpLog [JStr "This was toggled"];
                OpLog [JStr "This is the csrf:"; csrf_of M w];
                OpLog [JStr "This is messageId"; message_id_of evt w];
                OpSetHeader "X-CSRFToken" (csrf_of M w)]
               ++ match toggle_request M evt w with
                  | Some req => [OpRequest (length (requests w)) req]
                  | None => []
                  end |}).
Proof.
  unfold toggleLike, toggle_request, mbind, mret, host_bind, host_ret,
    preventDefault, console_log, set_common_header, jq_closest, jq_data,
    perform.
  cbn [fst snd client document common ops id].
  fold (message_id_of evt w). fold (csrf_of M w).
  destruct (ToString (message_id_of evt w)) as [text|].
  - unfold axios_post, perform, requests.
    cbn [fst snd client document common ops id].
    destruct (decide (sendable (client w)
                        (<["X-CSRFToken" := csrf_of M w]> (common w)))).
    + rewrite <- !app_assoc. cbn [app fst snd client document common ops].
      rewrite omap_app. cbn [omap list_omap request_of].
      by rewrite app_nil_r.
    + rewrite <- !app_assoc. by cbn [app].
  - rewrite <- !app_assoc. by cbn [app].
Qed.


Lemma after_unreadable resp_data w :
  get_prop resp_data "favorited" = None →
  ∃ reason, toggleLike_after M (Fulfilled resp_data) w = (Threw reason, w).
Proof. intros H. unfold toggleLike_after. rewrite H. by eexists. Qed.

(** When the comparison throws, so does the handler, before any edit. *)
Lemma after_uncomparable resp_data favorited w :
  get_prop resp_data "favorited" = Some favorited →
  loose_eq_true favorited = None →
  toggleLike_after M (Fulfilled resp_data) w = (Threw conversion_error, w).
Proof. intros H1 H2. unfold toggleLike_after. by rewrite H1, H2. Qed.

(** The handler after a response whose [favorited] can be read and
    compared. *)
Lemma after_fulfilled resp_data favorited verdict w :
  get_prop resp_data "favorited" = Some favorited →
  loose_eq_true favorited = Some verdict →
  toggleLike_after M (Fulfilled resp_data) w
  = (Returned,
     {| client := client w;
        document := (if verdict then star (favIcon M) (document w)
                     else unstar (favIcon M) (document w));
        common := common w;
        ops := ops w ++ edits M verdict |}).
Proof.
  intros H1 H2. unfold toggleLike_after. rewrite H1, H2.
  destruct verdict;
    unfold mbind, mret, host_bind, host_ret, jq_removeClass, jq_addClass,
      perform, on_document, star, unstar, edits;
    cbn [fst snd client document common ops]; by rewrite <- app_assoc.
Qed.

(** The starred edit leaves a selected icon starred, whatever it showed. *)
Lemma star_starred js doc i e :
  doc !! i = Some e → i ∈ js → starred (classes_of (star js doc) i).
Proof.
  intros He Hi. unfold star, addClass, removeClass.
  assert (Hr : each_class (remove_tokens (classesToArray "bi-star")) js doc !! i
               = Some (with_classes (remove_tokens (classesToArray "bi-star")) e)).
  { rewrite lookup_each_class, He. simpl. by rewrite decide_True. }
  rewrite (classes_of_each_class _ _ _ _ _ Hr Hi). cbn [classes with_classes].
  unfold starred. rewrite !elem_of_add_tokens, !elem_of_remove_tokens.
  change (classesToArray "bi-star-fill text-warning")
    with ["bi-star-fill"; "text-warning"].
  change (classesToArray "bi-star") with ["bi-star"].
  rewrite !elem_of_cons, !elem_of_nil. repeat split; auto.
  intros [[_ H]|[H|[H|[]]]]; [|discriminate H..]. apply H. by left.
Qed.

(** The unstarred edit leaves a selected icon unstarred. *)
Lemma unstar_unstarred js doc i e :
  doc !! i = Some e → i ∈ js → unstarred (classes_of (unstar js doc) i).
Proof.
  intros He Hi. unfold unstar, addClass, removeClass.
  assert (Hr : each_class (remove_tokens (classesToArray "bi-star-fill text-warning"))
                 js doc !! i
               = Some (with_classes
                         (remove_tokens (classesToArray "bi-star-fill text-warning")) e)).
  { rewrite lookup_each_class, He. simpl. by rewrite decide_True. }
  rewrite (classes_of_each_class _ _ _ _ _ Hr Hi). cbn [classes with_classes].
  unfold unstarred. rewrite !elem_of_add_tokens, !elem_of_remove_tokens.
  change (classesToArray "bi-star-fill text-warning")
    with ["bi-star-fill"; "text-warning"].
  change (classesToArray "bi-star") with ["bi-star"].
  rewrite !elem_of_cons, !elem_of_nil. repeat split; auto.
  - intros [[_ H]|[H|[]]]; [|discriminate H]. apply H. by left.
  - intros [[_ H]|[H|[]]]; [|discriminate H]. apply H. right. by left.
Qed.

(** Both edits leave every other node as it was, and keep all nodes. *)
Lemma star_other js doc i : i ∉ js → star js doc !! i = doc !! i.
Proof.
  intros Hi. unfold star, addClass, removeClass.
  by rewrite !lookup_each_class_other.
Qed.

Lemma unstar_other js doc i : i ∉ js → unstar js doc !! i = doc !! i.
Proof.
  intros Hi. unfold unstar, addClass, removeClass.
  by rewrite !lookup_each_class_other.
Qed.

Lemma star_lookup_is_Some js doc i :
  is_Some (star js doc !! i) ↔ is_Some (doc !! i).
Proof.
  unfold star, addClass, removeClass.
  by rewrite !lookup_lt_is_Some, !length_each_class.
Qed.

Lemma unstar_lookup_is_Some js doc i :
  is_Some (unstar js doc !! i) ↔ is_Some (doc !! i).
Proof.
  unfold unstar, addClass, removeClass.
  by rewrite !lookup_lt_is_Some, !length_each_class.
Qed.

Lemma data_star key js' js doc : data key js' (star js doc) = data key js' doc.
Proof. unfold star, addClass, removeClass. by rewrite !data_each_class. Qed.

Lemma data_unstar key js' js doc :
  data key js' (unstar js doc) = data key js' doc.
Proof. unfold unstar, addClass, removeClass. by rewrite !data_each_class. Qed.

End HandlerFacts.

(** ** Facts about the event loop *)

Section LoopFacts.

Context (M : Script).
Implicit Types (L : Loop) (w : World) (evt : Event) (doc : Document).

(** The rest of the handler either throws and leaves the world alone, or
    returns after the edits of a verdict. *)
Lemma after_cases (outcome : Settled) w :
  (∃ reason, toggleLike_after M outcome w = (Threw reason, w))
  ∨ (∃ verdict : bool,
       toggleLike_after M outcome w
       = (Returned,
          {| client := client w;
             document := (if verdict then star (favIcon M) (document w)
                          else unstar (favIcon M) (document w));
             common := common w;
             ops := ops w ++ edits M verdict |})).
Proof.
  destruct outcome as [resp_data|reason]; [|left; by eexists].
  destruct (get_prop resp_data "favorited") as [v|] eqn:Hv.
  - destruct (loose_eq_true v) as [verdict|] eqn:Hc.
    + right. exists verdict. by apply (after_fulfilled M _ v).
    + left. eexists. by apply (after_uncomparable M _ v).
  - left. by apply after_unreadable.
Qed.

Lemma edits_no_request verdict : omap request_of (edits M verdict) = [].
Proof. by destruct verdict. Qed.

(** What the rest of the handler leaves alone, however the promise
    settles. *)
Lemma after_frame (outcome : Settled) w :
  let w' := (toggleLike_after M outcome w).2 in
  client w' = client w
  ∧ common w' = common w
  ∧ requests w' = requests w
  ∧ (∃ l, ops w' = ops w ++ l)
  ∧ (∀ key js, data key js (document w') = data key js (document w))
  ∧ (∀ i, i ∉ favIcon M → document w' !! i = document w !! i)
  ∧ (∀ i, is_Some (document w' !! i) ↔ is_Some (document w !! i)).
Proof.
  cbv zeta. destruct (after_cases outcome w) as [[reason ->]|[verdict ->]];
    cbn [snd].
  { repeat split; try done. exists []. by rewrite app_nil_r. }
  unfold requests. cbn [client document common ops].
  split; [done|]. split; [done|].
  split; [by rewrite requests_app, edits_no_request, app_nil_r|].
  split; [by eexists|]. destruct verdict.
  - split; [intros; apply data_star|].
    split; [intros; by apply star_other|]. intros; apply star_lookup_is_Some.
  - split; [intros; apply data_unstar|].
    split; [intros; by apply unstar_other|]. intros; apply unstar_lookup_is_Some.
Qed.

(** A click runs the handler; the handler parks at its [await] or its error
    goes unhandled. *)
Lemma step_click L evt :
  step M L (Click evt)
  = match toggle_request M evt (world L) with
    | Some _ =>
        {| world := (toggleLike M evt (world L)).2;
           suspended := suspended L ++
                        [{| awaiting := length (requests (world L));
                            resume := toggleLike_after M |}];
           unhandled := unhandled L |}
    | None =>
        {| world := (toggleLike M evt (world L)).2;
           suspended := suspended L;
           unhandled := unhandled L ++ [conversion_error] |}
    end.
Proof.
  unfold step. rewrite toggleLike_run.
  by destruct (toggle_request M evt (world L)).
Qed.

Lemma world_step_click L evt :
  world (step M L (Click evt)) = (toggleLike M evt (world L)).2.
Proof.
  rewrite step_click. by destruct (toggle_request M evt (world L)).
Qed.

Lemma requests_after_click evt w :
  requests (toggleLike M evt w).2
  = requests w ++ option_list (toggle_request M evt w).
Proof.
  rewrite toggleLike_run. cbn [snd]. unfold requests at 1. cbn [ops].
  rewrite requests_app. f_equal.
  by destruct (toggle_request M evt w).
Qed.

Lemma take_waiting_fresh n (l r : list Suspended) s :
  Forall (λ x, awaiting x < n) l → awaiting s = n →
  take_waiting n (l ++ s :: r) = Some (s, l ++ r).
Proof.
  intros Hl Hs. induction Hl as [|x l Hx _ IH]; simpl.
  - by rewrite decide_True.
  - rewrite decide_False by lia. by rewrite IH.
Qed.

Lemma take_waiting_none n (l : list Suspended) :
  Forall (λ x, awaiting x < n) l → take_waiting n l = None.
Proof.
  intros Hl. induction Hl as [|x l Hx _ IH]; simpl; [done|].
  rewrite decide_False by lia. by rewrite IH.
Qed.

Lemma take_waiting_Some n (l r : list Suspended) s :
  take_waiting n l = Some (s, r) → s ∈ l ∧ ∀ x, x ∈ r → x ∈ l.
Proof.
  revert r. induction l as [|x l IH]; intros r; simpl; [done|].
  destruct (decide (awaiting x = n)).
  - intros [= -> ->]. split; [left|]. intros; by right.
  - destruct (take_waiting n l) as [[s' r']|]; [|done].
    intros [= -> <-]. destruct (IH r' eq_refl) as [Hs Hr].
    split; [by right|]. intros y [->|Hy]%elem_of_cons; [left|right; auto].
Qed.

Lemma script_loop_start line doc0 : script_loop M doc0 (start line doc0).
Proof. repeat split; simpl; auto. Qed.

Lemma script_loop_step doc0 L i :
  script_loop M doc0 L → script_loop M doc0 (step M L i).
Proof.
  intros (Hs & Hd & Hn). destruct i as [evt|n outcome].
  - pose proof (requests_after_click evt (world L)) as Hreq.
    rewrite step_click.
    destruct (toggle_request M evt (world L)) as [req|];
      unfold script_loop; cbn [world suspended];
      rewrite Hreq, length_app; rewrite toggleLike_run;
      cbn [snd document option_list length]; (split; [|done]).
    + apply Forall_app. split.
      * eapply Forall_impl; [exact Hs|]. simpl. intros s [? ?]. split; [done|lia].
      * apply Forall_singleton. simpl. split; [done|lia].
    + eapply Forall_impl; [exact Hs|]. simpl. intros s [? ?]. split; [done|lia].
  - unfold step. destruct (take_waiting n (suspended L)) as [[s rest]|] eqn:Ht;
      [|done].
    apply take_waiting_Some in Ht as [Hin Hrest].
    rewrite Forall_forall in Hs. destruct (Hs s Hin) as [Hres _].
    rewrite Hres.
    destruct (after_frame outcome (world L))
      as (_ & _ & Hreq & _ & Hdata & _ & Hsome).
    destruct (toggleLike_after M outcome (world L)) as [c w'].
    cbn [snd] in *. unfold script_loop. cbn [world suspended].
    rewrite Hreq. split; [|split].
    + apply Forall_forall. intros x Hx. apply Hs. auto.
    + intros. by rewrite Hdata.
    + intros. by rewrite Hsome.
Qed.

Lemma script_loop_run doc0 inputs L :
  script_loop M doc0 L → script_loop M doc0 (run M L inputs).
Proof.
  revert L. induction inputs as [|i inputs IH]; intros L HL; [done|].
  simpl. apply IH. by apply script_loop_step.
Qed.

(** Nothing the loop does takes an operation back, or a request. *)
Lemma step_ops doc0 L i :
  script_loop M doc0 L → ∃ l, ops (world (step M L i)) = ops (world L) ++ l.
Proof.
  intros (Hs & _). destruct i as [evt|n outcome].
  - rewrite world_step_click, toggleLike_run. cbn [snd ops]. by eexists.
  - unfold step. destruct (take_waiting n (suspended L)) as [[s rest]|] eqn:Ht.
    2: { exists []. by rewrite app_nil_r. }
    apply take_waiting_Some in Ht as [Hin _].
    rewrite Forall_forall in Hs. destruct (Hs s Hin) as [-> _].
    destruct (after_frame outcome (world L)) as (_ & _ & _ & Hops & _).
    by destruct (toggleLike_after M outcome (world L)).
Qed.

Lemma run_ops doc0 inputs L :
  script_loop M doc0 L → ∃ l, ops (world (run M L inputs)) = ops (world L) ++ l.
Proof.
  revert L. induction inputs as [|i inputs IH]; intros L HL.
  - exists []. by rewrite app_nil_r.
  - simpl. destruct (IH (step M L i)) as [l2 Hl2];
      [by eapply script_loop_step|].
    destruct (step_ops doc0 L i HL) as [l1 Hl1].
    exists (l1 ++ l2). by rewrite Hl2, Hl1, app_assoc.
Qed.

Lemma script_loop_awaiting doc0 L :
  script_loop M doc0 L →
  Forall (λ s, awaiting s < length (requests (world L))) (suspended L).
Proof. intros (Hs & _). eapply Forall_impl; [exact Hs|]. by intros s [_ ?]. Qed.

(** Waking a parked handler. *)
Lemma settle_step doc0 L n outcome s rest :
  script_loop M doc0 L →
  take_waiting n (suspended L) = Some (s, rest) →
  step M L (Settle n outcome)
  = let done := toggleLike_after M outcome (world L) in
    {| world := done.2; suspended := rest;
       unhandled := match done.1 with
                    | Returned => unhandled L
                    | Threw reason => unhandled L ++ [reason]
                    end |}.
Proof.
  intros (Hs & _) Ht. unfold step. rewrite Ht.
  apply take_waiting_Some in Ht as [Hin _].
  rewrite Forall_forall in Hs. destruct (Hs s Hin) as [-> _].
  by destruct (toggleLike_after M outcome (world L)).
Qed.

(** A settling nobody waits for changes nothing. *)
Lemma settle_nobody doc0 L outcome :
  script_loop M doc0 L →
  step M L (Settle (length (requests (world L))) outcome) = L.
Proof.
  intros HL. unfold step.
  by rewrite (take_waiting_none _ _ (script_loop_awaiting doc0 L HL)).
Qed.

(** The newest handler is the one a fresh promise wakes. *)
Lemma settle_newest doc0 L evt outcome req :
  script_loop M doc0 L →
  toggle_request M evt (world L) = Some req →
  step M (step M L (Click evt)) (Settle (length (requests (world L))) outcome)
  = let done := toggleLike_after M outcome (toggleLike M evt (world L)).2 in
    {| world := done.2; suspended := suspended L;
       unhandled := match done.1 with
                    | Returned => unhandled L
                    | Threw reason => unhandled L ++ [reason]
                    end |}.
Proof.
  intros HL Hreq. rewrite step_click, Hreq. unfold step at 1.
  cbn [suspended world].
  rewrite (take_waiting_fresh _ (suspended L) []).
  - rewrite app_nil_r. cbn [resume unhandled].
    by destruct (toggleLike_after M outcome _).
  - apply (script_loop_awaiting doc0 L HL).
  - done.
Qed.

End LoopFacts.
(** ** What the script keeps of the page *)

Section PageFacts.

Context (M : Script).
Implicit Types (L : Loop) (w : World) (evt : Event) (doc : Document).

Lemma same_page_refl js doc : same_page js doc doc.
Proof. split; [done|]. intros i e0 He. exists e0. by repeat split. Qed.

Lemma each_class_same_page g js doc0 doc :
  (∀ cs c, c ∉ icon_classes → (c ∈ g cs ↔ c ∈ cs)) →
  same_page js doc0 doc → same_page js doc0 (each_class g js doc).
Proof.
  intros Hg [Hlen Hsame]. split; [by rewrite length_each_class|].
  intros i e0 He0. destruct (Hsame i e0 He0) as (e & He & (Hp & Hd & Hc) & Hout).
  rewrite lookup_each_class, He. simpl.
  destruct (decide (i ∈ js)) as [Hi|Hi].
  - eexists. split; [done|]. split; [|by intros []].
    split; [done|]. split; [done|]. intros c Hcc. simpl.
    specialize (Hg (classes e) c Hcc). specialize (Hc c Hcc). tauto.
  - exists e. split; [done|]. split; [by split|done].
Qed.

Lemma remove_tokens_keeps names cs c :
  (∀ n, n ∈ names → n ∈ icon_classes) → c ∉ icon_classes →
  c ∈ remove_tokens names cs ↔ c ∈ cs.
Proof.
  intros Hn Hc. rewrite elem_of_remove_tokens. split; [tauto|].
  intros H. split; [done|]. intros Hin. by apply Hc, Hn.
Qed.

Lemma add_tokens_keeps names cs c :
  (∀ n, n ∈ names → n ∈ icon_classes) → c ∉ icon_classes →
  c ∈ add_tokens names cs ↔ c ∈ cs.
Proof.
  intros Hn Hc. rewrite elem_of_add_tokens. split; [|tauto].
  intros [H|H]; [done|]. by destruct Hc; apply Hn.
Qed.

Lemma star_names_icon n :
  n ∈ ["bi-star-fill"; "text-warning"] → n ∈ icon_classes.
Proof.
  unfold icon_classes. rewrite !elem_of_cons, !elem_of_nil. tauto.
Qed.

Lemma unstar_names_icon n : n ∈ ["bi-star"] → n ∈ icon_classes.
Proof.
  unfold icon_classes. rewrite !elem_of_cons, !elem_of_nil. tauto.
Qed.

Lemma star_same_page js doc0 doc :
  same_page js doc0 doc → same_page js doc0 (star js doc).
Proof.
  intros H. unfold star, addClass, removeClass.
  apply each_class_same_page.
  { intros cs c Hc. apply add_tokens_keeps; [apply star_names_icon|done]. }
  apply each_class_same_page; [|done].
  intros cs c Hc. apply remove_tokens_keeps; [apply unstar_names_icon|done].
Qed.

Lemma unstar_same_page js doc0 doc :
  same_page js doc0 doc → same_page js doc0 (unstar js doc).
Proof.
  intros H. unfold unstar, addClass, removeClass.
  apply each_class_same_page.
  { intros cs c Hc. apply add_tokens_keeps; [apply unstar_names_icon|done]. }
  apply each_class_same_page; [|done].
  intros cs c Hc. apply remove_tokens_keeps; [apply star_names_icon|done].
Qed.

Lemma after_same_page doc0 (outcome : Settled) w :
  same_page (favIcon M) doc0 (document w) →
  same_page (favIcon M) doc0 (document (toggleLike_after M outcome w).2).
Proof.
  intros H.
  destruct (after_cases M outcome w) as [[reason ->]|[verdict ->]]; [done|].
  cbn [snd document]. destruct verdict.
  - by apply star_same_page.
  - by apply unstar_same_page.
Qed.

Lemma step_same_page doc0 L i :
  script_loop M doc0 L →
  same_page (favIcon M) doc0 (document (world L)) →
  same_page (favIcon M) doc0 (document (world (step M L i))).
Proof.
  intros HL Hsame. destruct i as [evt|n outcome].
  - rewrite world_step_click, toggleLike_run. by cbn [snd document].
  - unfold step.
    destruct (take_waiting n (suspended L)) as [[s rest]|] eqn:Ht; [|done].
    apply take_waiting_Some in Ht as [Hin _]. destruct HL as (Hs & _).
    rewrite Forall_forall in Hs. destruct (Hs s Hin) as [-> _].
    pose proof (after_same_page doc0 outcome (world L) Hsame) as H.
    by destruct (toggleLike_after M outcome (world L)).
Qed.

Lemma run_same_page_from doc0 inputs L :
  script_loop M doc0 L →
  same_page (favIcon M) doc0 (document (world L)) →
  same_page (favIcon M) doc0 (document (world (run M L inputs))).
Proof.
  revert L. induction inputs as [|i inputs IH]; intros L HL Hsame; [done|].
  change (run M L (i :: inputs)) with (run M (step M L i) inputs).
  apply IH; [by apply script_loop_step|by apply step_same_page].
Qed.

Lemma run_same_page line doc0 inputs :
  same_page (favIcon M) doc0 (document (world (run M (start line doc0) inputs))).
Proof.
  apply run_same_page_from; [apply script_loop_start|apply same_page_refl].
Qed.

End PageFacts.

Section SamePageFacts.

Implicit Types (doc : Document) (js : jQuery) (cls : string).

Lemma same_page_lookup_None js doc0 doc i :
  same_page js doc0 doc → doc0 !! i = None → doc !! i = None.
Proof.
  intros [Hlen _] H. apply lookup_ge_None in H. apply lookup_ge_None. lia.
Qed.

Lemma same_page_classes js doc0 doc cls i :
  same_page js doc0 doc → cls ∉ icon_classes →
  cls ∈ classes_of doc i ↔ cls ∈ classes_of doc0 i.
Proof.
  intros Hs Hc. unfold classes_of.
  destruct (doc0 !! i) as [e0|] eqn:He0.
  - destruct Hs as [_ Hs]. destruct (Hs i e0 He0) as (e & -> & (_ & _ & H) & _).
    simpl. by apply H.
  - by rewrite (same_page_lookup_None js doc0 doc i Hs He0).
Qed.

Lemma same_page_closest_from js doc0 doc cls fuel i :
  same_page js doc0 doc → cls ∉ icon_classes →
  closest_from fuel doc cls i = closest_from fuel doc0 cls i.
Proof.
  intros Hs Hc. revert i. induction fuel as [|fuel IH]; intros i; [done|].
  simpl. destruct (doc0 !! i) as [e0|] eqn:He0.
  - destruct Hs as [_ Hs'].
    destruct (Hs' i e0 He0) as (e & -> & (Hp & _ & H) & _).
    rewrite Hp. specialize (H cls Hc).
    destruct (decide (cls ∈ classes e)), (decide (cls ∈ classes e0));
      try tauto.
    destruct (parent e0); [apply IH|done].
  - by rewrite (same_page_lookup_None js doc0 doc i Hs He0).
Qed.

Lemma same_page_select js doc0 doc cls :
  same_page js doc0 doc → cls ∉ icon_classes →
  select cls doc = select cls doc0.
Proof.
  intros Hs Hc. unfold select, nodes. rewrite (proj1 Hs).
  apply list_filter_iff. intros i. by apply (same_page_classes js).
Qed.

Lemma same_page_closest js doc0 doc cls js' :
  same_page js doc0 doc → cls ∉ icon_classes →
  closest cls js' doc = closest cls js' doc0.
Proof.
  intros Hs Hc. unfold closest, nodes, closest_node. rewrite (proj1 Hs).
  apply list_filter_iff. intros i.
  split; intros H; (eapply Exists_impl; [exact H|]); intros j; simpl;
    by rewrite (same_page_closest_from js doc0 doc cls _ j Hs Hc).
Qed.

Lemma same_page_data js doc0 doc key js' :
  same_page js doc0 doc → data key js' doc = data key js' doc0.
Proof.
  intros Hs. unfold data. destruct js' as [|i _]; [done|].
  destruct (doc0 !! i) as [e0|] eqn:He0.
  - destruct Hs as [_ Hs]. destruct (Hs i e0 He0) as (e & -> & (_ & Hd & _) & _).
    simpl. by rewrite Hd.
  - by rewrite (same_page_lookup_None js doc0 doc i Hs He0).
Qed.

Lemma not_icon_class_fav_icon : "fav-icon" ∉ icon_classes.
Proof. unfold icon_classes. rewrite !elem_of_cons, elem_of_nil. by intros [|[|[|]]]. Qed.

Lemma not_icon_class_fav_button : "fav-button" ∉ icon_classes.
Proof. unfold icon_classes. rewrite !elem_of_cons, elem_of_nil. by intros [|[|[|]]]. Qed.

Lemma not_icon_class_like_form : "like-form" ∉ icon_classes.
Proof. unfold icon_classes. rewrite !elem_of_cons, elem_of_nil. by intros [|[|[|]]]. Qed.

End SamePageFacts.


(** ** What a run sends and prints *)

Section TraceFacts.

Context (M : Script) (line : Axios) (doc0 : Document).
Implicit Types (L : Loop) (w : World) (evt : Event).

Local Abbreviation w0 := (world (start line doc0)).
Local Abbreviation token := (data "csrf" (favButton M) doc0).

Lemma fresh_like_start : fresh_like M line doc0 (start line doc0).
Proof.
  split; [done|]. split; [apply script_loop_start|].
  split; [apply same_page_refl|done].
Qed.

Lemma fresh_like_reads L evt :
  fresh_like M line doc0 L →
  csrf_of M (world L) = token
  ∧ message_id_of evt (world L) = message_id_of evt w0
  ∧ toggle_request M evt (world L) = toggle_request M evt w0.
Proof.
  intros (Hcl & HL & Hs & Hc).
  assert (H1 : csrf_of M (world L) = token).
  { destruct HL as (_ & Hd & _). apply Hd. }
  assert (H2 : message_id_of evt (world L) = message_id_of evt w0).
  { unfold message_id_of. cbn [start world document].
    rewrite (same_page_closest _ _ _ _ _ Hs not_icon_class_like_form).
    apply (same_page_data _ _ _ _ _ Hs). }
  split; [done|]. split; [done|].
  unfold toggle_request. rewrite H1, H2, Hc, Hcl. done.
Qed.

Lemma after_console (outcome : Settled) w :
  console (toggleLike_after M outcome w).2 = console w.
Proof.
  destruct (after_cases M outcome w) as [[reason ->]|[verdict ->]]; [done|].
  unfold console. cbn [snd ops]. rewrite omap_app.
  destruct verdict; cbn [edits omap list_omap log_of]; apply app_nil_r.
Qed.

Lemma step_fresh_like L i :
  fresh_like M line doc0 L → fresh_like M line doc0 (step M L i).
Proof.
  intros HF. pose proof HF as (Hcl & HL & Hs & Hc).
  destruct i as [evt|n outcome].
  - split; [by rewrite world_step_click, toggleLike_run|].
    split; [by apply script_loop_step|]. split; [by apply step_same_page|].
    rewrite world_step_click, toggleLike_run. cbn [snd common].
    destruct (fresh_like_reads L evt HF) as (-> & _).
    by rewrite insert_insert_eq.
  - assert (Hw : client (world (step M L (Settle n outcome))) = client (world L)
                 ∧ common (world (step M L (Settle n outcome)))
                   = common (world L)).
    { unfold step.
      destruct (take_waiting n (suspended L)) as [[s rest]|] eqn:Ht; [|done].
      apply take_waiting_Some in Ht as [Hin _]. destruct HL as (Hsusp & _).
      rewrite Forall_forall in Hsusp. destruct (Hsusp s Hin) as [-> _].
      destruct (after_frame M outcome (world L)) as (Hcli & Hcom & _).
      by destruct (toggleLike_after M outcome (world L)) as [c w']. }
    destruct Hw as [Hw1 Hw2].
    split; [by rewrite Hw1|]. split; [by apply script_loop_step|].
    split; [by apply step_same_page|]. by rewrite Hw2.
Qed.

Lemma run_fresh_like inputs L :
  fresh_like M line doc0 L → fresh_like M line doc0 (run M L inputs).
Proof.
  revert L. induction inputs as [|i inputs IH]; intros L HF; [done|].
  change (run M L (i :: inputs)) with (run M (step M L i) inputs).
  by apply IH, step_fresh_like.
Qed.

Lemma step_trace L i :
  fresh_like M line doc0 L →
  requests (world (step M L i))
  = requests (world L)
    ++ from_option (λ evt, option_list (toggle_request M evt w0)) []
         (click_of i)
  ∧ console (world (step M L i))
    = console (world L) ++ from_option (printed M line doc0) [] (click_of i).
Proof.
  intros HF. pose proof HF as (_ & HL & _). destruct i as [evt|n outcome].
  - rewrite world_step_click. cbn [click_of from_option].
    destruct (fresh_like_reads L evt HF) as (Hc & Hm & Hr).
    rewrite requests_after_click, Hr. split; [done|].
    rewrite toggleLike_run. unfold console, printed. cbn [snd ops].
    rewrite !omap_app. cbn [omap list_omap log_of]. rewrite Hc, Hm.
    destruct (toggle_request M evt (world L)); cbn [omap list_omap log_of];
      by rewrite app_nil_r.
  - cbn [click_of from_option]. rewrite !app_nil_r. unfold step.
    destruct (take_waiting n (suspended L)) as [[s rest]|] eqn:Ht; [|done].
    apply take_waiting_Some in Ht as [Hin _]. destruct HL as (Hsusp & _).
    rewrite Forall_forall in Hsusp. destruct (Hsusp s Hin) as [-> _].
    destruct (after_frame M outcome (world L)) as (_ & _ & Hreq & _).
    pose proof (after_console outcome (world L)) as Hcon.
    destruct (toggleLike_after M outcome (world L)) as [c w'].
    by cbn [snd world] in *.
Qed.

Lemma run_trace inputs L :
  fresh_like M line doc0 L →
  requests (world (run M L inputs))
  = requests (world L)
    ++ omap (λ evt, toggle_request M evt w0) (clicks inputs)
  ∧ console (world (run M L inputs))
    = console (world L) ++ (clicks inputs ≫= printed M line doc0).
Proof.
  revert L. induction inputs as [|i inputs IH]; intros L HF.
  - simpl. by rewrite !app_nil_r.
  - change (run M L (i :: inputs)) with (run M (step M L i) inputs).
    destruct (IH _ (step_fresh_like L i HF)) as [-> ->].
    destruct (step_trace L i HF) as [-> ->].
    rewrite <- !app_assoc. unfold clicks.
    destruct i as [evt|n outcome]; [|done]. cbn [omap list_omap click_of from_option].
    split; [|done]. f_equal.
    by destruct (toggle_request M evt w0).
Qed.



End TraceFacts.

(** ** When the request goes out *)

Section SendFacts.

Context (M : Script).
Implicit Types (L : Loop) (w : World) (evt : Event) (line : Axios).


(** With the defaults the client ships, the request goes out exactly when
    the token converts to text. *)
Lemma sendable_with_token line token (defaults : gmap string jsval) :
  <["X-CSRFToken" := token]> defaults = <["X-CSRFToken" := token]> shipped →
  sendable line (<["X-CSRFToken" := token]> defaults)
  ↔ is_Some (ToString token).
Proof.
  intros ->. unfold sendable. split.
  - intros H. apply (H "X-CSRFToken" token); [apply lookup_insert_eq|].
    by destruct line.
  - intros Ht. apply map_Forall_insert_2; [done|].
    unfold shipped. by apply map_Forall_singleton.
Qed.



Lemma toggle_request_sends evt w id :
  ToString (message_id_of evt w) = Some id →
  sendable (client w) (<["X-CSRFToken" := csrf_of M w]> (common w)) →
  toggle_request M evt w
  = Some {| method := "POST";
            url := BASE_URL +:+ "/messages/" +:+ id +:+ "/like";
            body := None;
            headers := sent_headers (client w)
                         (<["X-CSRFToken" := csrf_of M w]> (common w)) |}.
Proof.
  intros Hid Hs. unfold toggle_request. rewrite Hid. cbv zeta.
  by rewrite decide_True.
Qed.




End SendFacts.

(** ** The request *)



Lemma run_fresh M line doc0 inputs :
  fresh_like M line doc0 (run M (start line doc0) inputs).
Proof. apply run_fresh_like, fresh_like_start. Qed.







(** ** The icon *)

(** After a response whose [favorited] can be read and compared, every icon
    of the module's selection shows the verdict. *)
Lemma after_fulfilled_icon M resp_data favorited verdict w i :
  get_prop resp_data "favorited" = Some favorited →
  loose_eq_true favorited = Some verdict →
  i ∈ favIcon M → is_Some (document w !! i) →
  shows verdict
    (classes_of (document (toggleLike_after M (Fulfilled resp_data) w).2) i).
Proof.
  intros Hv Hc Hi [e He]. rewrite (after_fulfilled M _ _ _ w Hv Hc).
  destruct verdict; cbn [snd document shows].
  - by eapply star_starred.
  - by eapply unstar_unstarred.
Qed.

(** A call that parks resumes with the rest of the handler. *)
Lemma resume_toggleLike M evt w s :
  (toggleLike M evt w).1 = Parked s → resume s = toggleLike_after M.
Proof.
  rewrite toggleLike_run. cbn [fst].
  destruct (toggle_request M evt w); [|done]. by intros [= <-].
Qed.

Lemma toggleLike_parks M evt w req :
  toggle_request M evt w = Some req →
  (toggleLike M evt w).1
  = Parked {| awaiting := length (requests w);
              resume := toggleLike_after M |}.
Proof. intros Hr. by rewrite toggleLike_run, Hr. Qed.

(** C2.  When the response resolves with a payload whose [favorited] is
    [true], the handler returns normally and every icon of the module's
    selection then has [bi-star-fill] and [text-warning] and lacks
    [bi-star], whatever classes it had when the response arrived. *)
Theorem favorited_true_stars M evt w s resp_data w' i :
  (toggleLike M evt w).1 = Parked s →
  get_prop resp_data "favorited" = Some (JBool true) →
  i ∈ favIcon M → is_Some (document w' !! i) →
  let done := resume s (Fulfilled resp_data) w' in
  done.1 = Returned
  ∧ "bi-star-fill" ∈ classes_of (document done.2) i
  ∧ "text-warning" ∈ classes_of (document done.2) i
  ∧ "bi-star" ∉ classes_of (document done.2) i.
Proof.
  intros Hs Hv Hi He. cbv zeta. rewrite (resume_toggleLike M evt w s Hs).
  split; [by rewrite (after_fulfilled M _ (JBool true) true w' Hv)|].
  by apply (after_fulfilled_icon M resp_data (JBool true) true w' i Hv).
Qed.

Lemma favorited_true_stars_witness :
  let w := (toggleLike (load page) {| evt_id := 0; target := 3 |}
              (world (start Axios1 page))).2 in
  let done := toggleLike_after (load page)
                (Fulfilled (JObj [("favorited", JBool true)])) w in
  "bi-star-fill" ∈ classes_of (document done.2) 3
  ∧ "bi-star" ∉ classes_of (document done.2) 3.
Proof.
  destruct (favorited_true_stars (load page) {| evt_id := 0; target := 3 |}
              (world (start Axios1 page))
              {| awaiting := 0; resume := toggleLike_after (load page) |}
              (JObj [("favorited", JBool true)])
              (toggleLike (load page) {| evt_id := 0; target := 3 |}
                 (world (start Axios1 page))).2 3)
    as (_ & H1 & _ & H2).
  - eapply toggleLike_parks. vm_compute. reflexivity.
  - reflexivity.
  - apply elem_of_select. change (classes_of page 3) with ["fav-icon"; "bi"; "bi-star"].
    left.
  - vm_compute. eexists. reflexivity.
  - split; assumption.
Defined.

(** C3.  When the response resolves with a payload whose [favorited] is
    [false], the handler returns normally and every icon of the module's
    selection then has [bi-star] and lacks both [bi-star-fill] and
    [text-warning]. *)
Theorem favorited_false_unstars M evt w s resp_data w' i :
  (toggleLike M evt w).1 = Parked s →
  get_prop resp_data "favorited" = Some (JBool false) →
  i ∈ favIcon M → is_Some (document w' !! i) →
  let done := resume s (Fulfilled resp_data) w' in
  done.1 = Returned
  ∧ "bi-star" ∈ classes_of (document done.2) i
  ∧ ("bi-star-fill" ∉ classes_of (document done.2) i)
  ∧ ("text-warning" ∉ classes_of (document done.2) i).
Proof.
  intros Hs Hv Hi He. cbv zeta. rewrite (resume_toggleLike M evt w s Hs).
  split; [by rewrite (after_fulfilled M _ (JBool false) false w' Hv)|].
  by apply (after_fulfilled_icon M resp_data (JBool false) false w' i Hv).
Qed.

Lemma favorited_false_unstars_witness :
  let w := (toggleLike (load page) {| evt_id := 0; target := 6 |}
              (world (start Axios1 page))).2 in
  let done := toggleLike_after (load page)
                (Fulfilled (JObj [("favorited", JBool false)])) w in
  "bi-star" ∈ classes_of (document done.2) 6
  ∧ "bi-star-fill" ∉ classes_of (document done.2) 6.
Proof.
  destruct (favorited_false_unstars (load page) {| evt_id := 0; target := 6 |}
              (world (start Axios1 page))
              {| awaiting := 0; resume := toggleLike_after (load page) |}
              (JObj [("favorited", JBool false)])
              (toggleLike (load page) {| evt_id := 0; target := 6 |}
                 (world (start Axios1 page))).2 6)
    as (_ & H1 & H2 & _).
  - eapply toggleLike_parks. vm_compute. reflexivity.
  - reflexivity.
  - apply elem_of_select.
    change (classes_of page 6)
      with ["fav-icon"; "bi"; "bi-star-fill"; "text-warning"].
    left.
  - vm_compute. eexists. reflexivity.
  - split; assumption.
Defined.

(** ** The token, the default action and rejections *)

Section RunFacts.

Context (M : Script).
Implicit Types (L : Loop) (w : World) (evt : Event) (doc : Document).







End RunFacts.



(** C6.  Suppressing the event's default action is the first thing a call
    does, before its request goes out (a call whose message id or token
    cannot be converted to text sends none); the event stays suppressed
    however the loop goes on, whatever response or rejection arrives. *)
Theorem default_action_suppressed M line doc0 before evt later :
  let L := run M (start line doc0) before in
  let L1 := step M L (Click evt) in
  (∃ rest,
     ops (world L1)
     = ops (world L) ++ OpPreventDefault (evt_id evt)
         :: rest ++ match toggle_request M evt (world L) with
                    | Some req => [OpRequest (length (requests (world L))) req]
                    | None => []
                    end
     ∧ Forall (λ op, request_of op = None) rest)
  ∧ default_prevented (evt_id evt) (world L1)
  ∧ default_prevented (evt_id evt) (world (run M L1 later)).
Proof.
  intros L L1.
  assert (HL : script_loop M doc0 L)
    by apply script_loop_run, script_loop_start.
  assert (HL1 : script_loop M doc0 L1) by by apply script_loop_step.
  assert (Hops : ∃ rest,
             ops (world L1)
             = ops (world L) ++ OpPreventDefault (evt_id evt)
                 :: rest ++ match toggle_request M evt (world L) with
                            | Some req =>
                                [OpRequest (length (requests (world L))) req]
                            | None => []
                            end
             ∧ Forall (λ op, request_of op = None) rest).
  { eexists [_; _; _; _]. unfold L1.
    rewrite world_step_click, toggleLike_run. cbn [snd ops].
    split; [reflexivity|]. by repeat constructor. }
  assert (Hp : default_prevented (evt_id evt) (world L1)).
  { unfold default_prevented. destruct Hops as (rest & -> & _).
    apply elem_of_app. right. left. }
  split; [done|]. split; [done|].
  destruct (run_ops M doc0 later L1 HL1) as [l Hl].
  unfold default_prevented in *. rewrite Hl. apply elem_of_app. by left.
Qed.




(** ** Overlapping calls and the module's selections *)

Section SettleFacts.

Context (M : Script).
Implicit Types (L : Loop) (w : World) (evt : Event) (doc : Document).



Lemma settle_fulfilled_unhandled doc0 L n s rest resp_data favorited verdict :
  script_loop M doc0 L →
  take_waiting n (suspended L) = Some (s, rest) →
  get_prop resp_data "favorited" = Some favorited →
  loose_eq_true favorited = Some verdict →
  unhandled (step M L (Settle n (Fulfilled resp_data))) = unhandled L.
Proof.
  intros HL Ht Hv Hc. rewrite (settle_step M doc0 L n _ s rest HL Ht).
  cbv zeta. cbn [unhandled]. by rewrite (after_fulfilled M _ _ _ _ Hv Hc).
Qed.


End SettleFacts.



Lemma data_head key (js : jQuery) (doc : Document) :
  data key js doc
  = default JUndefined (head js ≫= λ b, doc !! b ≫= λ e, dataset e !! key).
Proof. by destruct js. Qed.

(** C9.  The handler works on the selections made when the script was
    loaded, whatever was clicked: the token comes from the first element that
    matched [.fav-button] then, and a response whose [favorited] can be
    compared with [true] edits the classes of every element that matched
    [.fav-icon] then and of no other element; where the comparison throws no
    element is edited.  A click inside another like form sets the same
    header, leaves the same document and parks the same continuation. *)
Theorem selections_fixed_at_load doc0 evt evt' w resp_data favorited w' :
  get_prop resp_data "favorited" = Some favorited →
  let M := load doc0 in
  let called := toggleLike M evt w in
  let done := toggleLike_after M (Fulfilled resp_data) w' in
  common called.2 !! "X-CSRFToken"
  = Some (default JUndefined
            (head (select "fav-button" doc0) ≫= λ b,
             document w !! b ≫= λ e, dataset e !! "csrf"))
  ∧ (∀ s, called.1 = Parked s → resume s = toggleLike_after M)
  ∧ (∀ verdict i, loose_eq_true favorited = Some verdict →
          "fav-icon" ∈ classes_of doc0 i → is_Some (document w' !! i) →
          shows verdict (classes_of (document done.2) i))
  ∧ (loose_eq_true favorited = None → document done.2 = document w')
  ∧ (∀ i, "fav-icon" ∉ classes_of doc0 i →
          document done.2 !! i = document w' !! i)
  ∧ (∀ i, document called.2 !! i = document w !! i)
  ∧ common (toggleLike M evt' w).2 = common called.2
  ∧ document (toggleLike M evt' w).2 = document called.2
  ∧ (∀ s s', called.1 = Parked s → (toggleLike M evt' w).1 = Parked s' →
             resume s' = resume s).
Proof.
  intros Hv M called done. unfold done, called.
  split; [|split; [|split; [|split; [|split; [|split; [|split; [|split]]]]]]].
  - rewrite toggleLike_run. cbn [snd common].
    unfold csrf_of. rewrite data_head. apply lookup_insert_eq.
  - intros s. apply resume_toggleLike.
  - intros verdict i Hc Hi He.
    apply (after_fulfilled_icon M _ _ _ w' i Hv Hc); [|done].
    by apply elem_of_select.
  - intros Hc. by rewrite (after_uncomparable M _ _ w' Hv Hc).
  - intros i Hi. apply (after_frame M (Fulfilled resp_data) w').
    unfold M, load. cbn [favIcon]. by rewrite elem_of_select.
  - intros i. by rewrite toggleLike_run.
  - by rewrite !toggleLike_run.
  - by rewrite !toggleLike_run.
  - intros s s' Hs Hs'.
    by rewrite (resume_toggleLike M evt w s Hs),
      (resume_toggleLike M evt' w s' Hs').
Qed.

Lemma selections_fixed_at_load_witness :
  let M := load page in
  let called := toggleLike M {| evt_id := 0; target := 3 |}
                  (world (start Axios1 page)) in
  let done := toggleLike_after M
                (Fulfilled (JObj [("favorited", JBool false)])) called.2 in
  common called.2 !! "X-CSRFToken"
  = Some (default JUndefined
            (head (select "fav-button" page) ≫= λ b,
             document (world (start Axios1 page)) !! b ≫= λ e,
             dataset e !! "csrf"))
  ∧ unstarred (classes_of (document done.2) 3)
  ∧ unstarred (classes_of (document done.2) 6)
  ∧ document done.2 !! 5 = document called.2 !! 5.
Proof.
  destruct (selections_fixed_at_load page {| evt_id := 0; target := 3 |}
              {| evt_id := 1; target := 6 |} (world (start Axios1 page))
              (JObj [("favorited", JBool false)]) (JBool false)
              (toggleLike (load page) {| evt_id := 0; target := 3 |}
                 (world (start Axios1 page))).2)
    as (H1 & _ & H2 & _ & H3 & _).
  - reflexivity.
  - cbv zeta. split; [exact H1|]. split; [|split].
    + apply (H2 false 3).
      * reflexivity.
      * change (classes_of page 3) with ["fav-icon"; "bi"; "bi-star"]. left.
      * vm_compute. eexists. reflexivity.
    + apply (H2 false 6).
      * reflexivity.
      * change (classes_of page 6)
          with ["fav-icon"; "bi"; "bi-star-fill"; "text-warning"]. left.
      * vm_compute. eexists. reflexivity.
    + apply (H3 5). change (classes_of page 5) with ["btn"; "fav-button"].
      rewrite !elem_of_cons, elem_of_nil. by intros [|[|]].
Defined.




(** ** The page over a whole run *)

(** X1.  However the loop runs, a node outside the module's icon selection
    is exactly as it was when the page was loaded. *)
Theorem run_leaves_other_nodes M line doc0 inputs i :
  i ∉ favIcon M →
  document (world (run M (start line doc0) inputs)) !! i = doc0 !! i.
Proof.
  intros Hi. pose proof (run_same_page M line doc0 inputs) as Hs.
  destruct (doc0 !! i) as [e0|] eqn:He0.
  - destruct Hs as [_ Hs]. destruct (Hs i e0 He0) as (e & -> & _ & Hout).
    by rewrite Hout.
  - by apply (same_page_lookup_None _ _ _ _ Hs).
Qed.

Lemma run_leaves_other_nodes_witness :
  document (world (run (load page) (start Axios1 page)
                     [Click {| evt_id := 0; target := 3 |};
                      Settle 0 (Fulfilled (JObj [("favorited", JBool true)]))]))
    !! 2 = page !! 2.
Proof.
  apply (run_leaves_other_nodes (load page) Axios1 page _ 2).
  change (favIcon (load page)) with [3; 6].
  rewrite !elem_of_cons, elem_of_nil. by intros [|[|]].
Defined.

(** X2.  However the loop runs, the page keeps its nodes, and every node
    keeps its parent, its data and every class other than [bi-star],
    [bi-star-fill] and [text-warning]. *)
Theorem run_keeps_structure M line doc0 inputs :
  let doc := document (world (run M (start line doc0) inputs)) in
  length doc = length doc0
  ∧ ∀ i e0, doc0 !! i = Some e0 →
      ∃ e, doc !! i = Some e
           ∧ parent e = parent e0
           ∧ dataset e = dataset e0
           ∧ ∀ c, c ∉ ["bi-star"; "bi-star-fill"; "text-warning"] →
                  (c ∈ classes e ↔ c ∈ classes e0).
Proof.
  destruct (run_same_page M line doc0 inputs) as [Hlen Hs]. split; [done|].
  intros i e0 He0. destruct (Hs i e0 He0) as (e & He & (Hp & Hd & Hc) & _).
  by exists e.
Qed.

Lemma run_keeps_structure_witness :
  ∃ e, document (world (run (load page) (start Axios1 page)
                          [Click {| evt_id := 0; target := 3 |};
                           Settle 0 (Fulfilled (JObj [("favorited", JBool true)]))]))
         !! 3 = Some e
       ∧ parent e = Some 2
       ∧ ("fav-icon" ∈ classes e ↔ "fav-icon" ∈ ["fav-icon"; "bi"; "bi-star"]).
Proof.
  destruct (run_keeps_structure (load page) Axios1 page
              [Click {| evt_id := 0; target := 3 |};
               Settle 0 (Fulfilled (JObj [("favorited", JBool true)]))])
    as [_ H].
  destruct (H 3 {| parent := Some 2; classes := ["fav-icon"; "bi"; "bi-star"];
                   dataset := ∅ |} eq_refl) as (e & He & Hp & _ & Hc).
  exists e. split; [exact He|]. split; [exact Hp|]. apply Hc.
  rewrite !elem_of_cons, elem_of_nil. by intros [|[|[|]]].
Defined.

(** X3.  The handler's class edits never change which nodes match
    [.fav-button] or [.fav-icon]: evaluating the script's two selections
    again at any later moment gives the selections made at load time. *)
Theorem selections_never_stale M line doc0 inputs :
  load (document (world (run M (start line doc0) inputs))) = load doc0.
Proof.
  pose proof (run_same_page M line doc0 inputs) as Hs. unfold load. f_equal.
  - apply (same_page_select _ _ _ _ Hs), not_icon_class_fav_button.
  - apply (same_page_select _ _ _ _ Hs), not_icon_class_fav_icon.
Qed.

(** ** What a run sends and prints *)


(** The headers of a request sent with the shipped defaults and the token. *)
Lemma sent_headers_fresh line token :
  sent_headers line (<["X-CSRFToken" := token]> shipped)
  = match header_sent line token with
    | Some text =>
        <["X-CSRFToken" := text]>
          {[ "Accept" := "application/json, text/plain, */*" ]}
    | None => {[ "Accept" := "application/json, text/plain, */*" ]}
    end.
Proof.
  unfold sent_headers. rewrite map_imap_insert.
  change (is_content_type "X-CSRFToken") with false. cbv iota.
  destruct (header_sent line token) as [text|]; destruct line;
    [f_equal| f_equal | |]; by vm_compute.
Qed.

(** The request of a call on the freshly loaded page, spelled out. *)
Lemma toggle_request_fresh M line doc0 evt :
  toggle_request M evt (world (start line doc0))
  = id ← ToString (message_id_of evt (world (start line doc0)));
    _ ← ToString (data "csrf" (favButton M) doc0);
    Some {| method := "POST";
            url := BASE_URL +:+ "/messages/" +:+ id +:+ "/like";
            body := None;
            headers :=
              match header_sent line (data "csrf" (favButton M) doc0) with
              | Some text =>
                  <["X-CSRFToken" := text]>
                    {[ "Accept" := "application/json, text/plain, */*" ]}
              | None => {[ "Accept" := "application/json, text/plain, */*" ]}
              end |}.
Proof.
  unfold toggle_request, csrf_of. cbn [start world client common document].
  destruct (ToString (message_id_of evt _)) as [id|]; [|done].
  cbn [mbind option_bind]. cbv zeta.
  pose proof (sendable_with_token line (data "csrf" (favButton M) doc0)
                shipped eq_refl) as Hs.
  destruct (decide _) as [Hyes|Hno].
  - apply Hs in Hyes as [text Ht]. rewrite Ht. cbn [mbind option_bind].
    by rewrite sent_headers_fresh.
  - destruct (ToString (data "csrf" (favButton M) doc0)) as [text|] eqn:Ht;
      [|done].
    destruct Hno. apply Hs. by eexists.
Qed.


(** X5.  Every call prints three lines, the second with the token and the
    third with the message id, and nothing else is ever printed: over any
    run the console holds these three lines per click, in click order. *)
Theorem console_is_three_lines_per_click M line doc0 inputs :
  console (world (run M (start line doc0) inputs))
  = clicks inputs ≫= λ evt,
      [[JStr "This was toggled"];
       [JStr "This is the csrf:"; data "csrf" (favButton M) doc0];
       [JStr "This is messageId";
        message_id_of evt (world (start line doc0))]].
Proof.
  destruct (run_trace M line doc0 inputs (start line doc0)
              (fresh_like_start M line doc0)) as [_ ->].
  reflexivity.
Qed.



(** ** Responses that are not the expected object *)

(** X7.  A response whose data is [null] or [undefined] makes the handler
    throw while it reads [favorited]: nothing on the page, in the client or
    in the log changes, and the error is left unhandled. *)
Theorem unreadable_response_throws M line doc0 before evt resp_data :
  resp_data = JNull ∨ resp_data = JUndefined →
  let L := run M (start line doc0) before in
  let L1 := step M L (Click evt) in
  let L2 := step M L1 (Settle (length (requests (world L))) (Fulfilled resp_data)) in
  world L2 = world L1
  ∧ document (world L2) = document (world L)
  ∧ suspended L2 = suspended L
  ∧ ∃ message, unhandled L2 = unhandled L ++ [TypeError message].
Proof.
  intros Hd L L1 L2.
  assert (HL : script_loop M doc0 L)
    by apply script_loop_run, script_loop_start.
  assert (Hv : get_prop resp_data "favorited" = None)
    by (by destruct Hd as [-> | ->]).
  destruct (toggle_request M evt (world L)) as [req|] eqn:Hreq.
  - unfold L2, L1. rewrite (settle_newest M doc0 L evt _ req HL Hreq). cbv zeta.
    unfold toggleLike_after. rewrite Hv.
    cbn [fst snd mret host_ret world suspended unhandled].
    split; [by rewrite world_step_click|]. split; [by rewrite toggleLike_run|].
    split; [done|]. by eexists.
  - assert (Hn : length (requests (world L1)) = length (requests (world L))).
    { unfold L1. rewrite world_step_click, requests_after_click, Hreq.
      by rewrite app_nil_r. }
    assert (HL1 : script_loop M doc0 L1) by by apply script_loop_step.
    unfold L2. rewrite <- Hn, (settle_nobody M doc0 L1 _ HL1).
    split; [done|]. unfold L1. rewrite step_click, Hreq.
    cbn [world suspended unhandled].
    split; [by rewrite toggleLike_run|]. split; [done|]. by eexists.
Qed.

Lemma unreadable_response_throws_witness :
  let L := run (load page) (start Axios1 page) [] in
  let L1 := step (load page) L (Click {| evt_id := 0; target := 3 |}) in
  let L2 := step (load page) L1
              (Settle (length (requests (world L))) (Fulfilled JNull)) in
  document (world L2) = document (world L) ∧ suspended L2 = suspended L.
Proof.
  destruct (unreadable_response_throws (load page) Axios1 page []
              {| evt_id := 0; target := 3 |} JNull)
    as (_ & H1 & H2 & _).
  - by left.
  - cbv zeta. split; [exact H1|exact H2].
Defined.

Lemma get_prop_lacking resp_data :
  lacks_favorited resp_data → get_prop resp_data "favorited" = Some JUndefined.
Proof.
  destruct resp_data as [| | | | | |props]; simpl; try done.
  intros Hno. destruct (find _ props) as [[k v]|] eqn:Hf; [|done].
  apply find_some in Hf as [Hin Hk]. simpl in Hk.
  apply String.eqb_eq in Hk as ->. destruct (Hno v).
  by apply list_elem_of_In.
Qed.

(** X8.  A response without a [favorited] field, or one that is no object
    at all (an empty body, an error page), counts as "not favorited": the
    handler returns normally and every selected icon ends up unstarred. *)
Theorem response_without_field_unstars M evt w s resp_data w' i :
  (toggleLike M evt w).1 = Parked s →
  lacks_favorited resp_data →
  i ∈ favIcon M → is_Some (document w' !! i) →
  let done := resume s (Fulfilled resp_data) w' in
  done.1 = Returned ∧ unstarred (classes_of (document done.2) i).
Proof.
  intros Hs Hv%get_prop_lacking Hi He. cbv zeta.
  rewrite (resume_toggleLike M evt w s Hs).
  split; [by rewrite (after_fulfilled M _ JUndefined false w' Hv)|].
  by apply (after_fulfilled_icon M resp_data JUndefined false w' i Hv).
Qed.

Lemma response_without_field_unstars_witness :
  let w := (toggleLike (load page) {| evt_id := 0; target := 6 |}
              (world (start Axios1 page))).2 in
  let done := toggleLike_after (load page) (Fulfilled (JStr "")) w in
  done.1 = Returned ∧ unstarred (classes_of (document done.2) 6).
Proof.
  apply (response_without_field_unstars (load page)
           {| evt_id := 0; target := 6 |} (world (start Axios1 page))
           {| awaiting := 0; resume := toggleLike_after (load page) |}
           (JStr "")
           (toggleLike (load page) {| evt_id := 0; target := 6 |}
              (world (start Axios1 page))).2 6).
  - eapply toggleLike_parks. vm_compute. reflexivity.
  - exact I.
  - apply elem_of_select.
    change (classes_of page 6)
      with ["fav-icon"; "bi"; "bi-star-fill"; "text-warning"]. left.
  - vm_compute. eexists. reflexivity.
Defined.

(** ** The class edits *)

Section EditFacts.

Implicit Types (doc : Document) (js : jQuery) (cs names : list string).

Lemma classes_of_star js doc i e :
  doc !! i = Some e → i ∈ js →
  classes_of (star js doc) i
  = add_tokens ["bi-star-fill"; "text-warning"] (remove_tokens ["bi-star"] (classes e)).
Proof.
  intros He Hi. unfold star, addClass, removeClass.
  assert (Hr : each_class (remove_tokens (classesToArray "bi-star")) js doc !! i
               = Some (with_classes (remove_tokens (classesToArray "bi-star")) e)).
  { rewrite lookup_each_class, He. simpl. by rewrite decide_True. }
  by rewrite (classes_of_each_class _ _ _ _ _ Hr Hi).
Qed.

Lemma classes_of_unstar js doc i e :
  doc !! i = Some e → i ∈ js →
  classes_of (unstar js doc) i
  = add_tokens ["bi-star"] (remove_tokens ["bi-star-fill"; "text-warning"] (classes e)).
Proof.
  intros He Hi. unfold unstar, addClass, removeClass.
  assert (Hr : each_class (remove_tokens (classesToArray "bi-star-fill text-warning"))
                 js doc !! i
               = Some (with_classes
                         (remove_tokens (classesToArray "bi-star-fill text-warning")) e)).
  { rewrite lookup_each_class, He. simpl. by rewrite decide_True. }
  by rewrite (classes_of_each_class _ _ _ _ _ Hr Hi).
Qed.

Lemma remove_tokens_id names cs :
  (∀ c, c ∈ cs → c ∉ names) → remove_tokens names cs = cs.
Proof.
  unfold remove_tokens. induction cs as [|c cs IH]; intros H; [done|].
  rewrite filter_cons_True by (apply H; left).
  rewrite IH; [done|]. intros c' Hc'. apply H. by right.
Qed.

Lemma add_tokens_id names cs :
  (∀ n, n ∈ names → n ∈ cs) → add_tokens names cs = cs.
Proof.
  unfold add_tokens. induction names as [|n names IH]; intros H; [done|].
  simpl. rewrite decide_True by (apply H; left).
  apply IH. intros n' Hn'. apply H. by right.
Qed.

(** Removing one set of classes and adding a disjoint one is idempotent. *)
Lemma edit_idempotent add rem cs :
  (∀ n, n ∈ add → n ∉ rem) →
  add_tokens add (remove_tokens rem (add_tokens add (remove_tokens rem cs)))
  = add_tokens add (remove_tokens rem cs).
Proof.
  intros Hdisj. rewrite (remove_tokens_id rem).
  - apply add_tokens_id. intros n Hn. apply elem_of_add_tokens. by right.
  - intros c [Hc|Hc]%elem_of_add_tokens.
    + by apply elem_of_remove_tokens in Hc as [_ ?].
    + by apply Hdisj.
Qed.

Lemma each_class_each_class f g js doc :
  each_class f js (each_class g js doc) = each_class (f ∘ g) js doc.
Proof.
  apply list_eq. intros i. rewrite !lookup_each_class.
  destruct (doc !! i) as [e|]; [|done]. simpl.
  by destruct (decide (i ∈ js)).
Qed.

Lemma each_class_ext f g js doc :
  (∀ cs, f cs = g cs) → each_class f js doc = each_class g js doc.
Proof.
  intros H. apply list_eq. intros i. rewrite !lookup_each_class.
  destruct (doc !! i) as [e|]; [|done]. simpl.
  destruct (decide (i ∈ js)); [|done]. unfold with_classes. by rewrite H.
Qed.

Lemma star_star js doc : star js (star js doc) = star js doc.
Proof.
  unfold star, addClass, removeClass. rewrite !each_class_each_class.
  apply each_class_ext. intros cs. unfold compose. apply edit_idempotent.
  intros n.
  change (classesToArray "bi-star-fill text-warning")
    with ["bi-star-fill"; "text-warning"].
  change (classesToArray "bi-star") with ["bi-star"].
  rewrite !elem_of_cons, !elem_of_nil. by intros [->|[->|[]]] [|[]].
Qed.

Lemma unstar_unstar js doc : unstar js (unstar js doc) = unstar js doc.
Proof.
  unfold unstar, addClass, removeClass. rewrite !each_class_each_class.
  apply each_class_ext. intros cs. unfold compose. apply edit_idempotent.
  intros n.
  change (classesToArray "bi-star-fill text-warning")
    with ["bi-star-fill"; "text-warning"].
  change (classesToArray "bi-star") with ["bi-star"].
  rewrite !elem_of_cons, !elem_of_nil. by intros [->|[]] [|[|[]]].
Qed.

End EditFacts.


(** X9.  After a response whose [favorited] can be compared with [true], a
    selected icon has exactly the classes it had before other than
    [bi-star], [bi-star-fill] and [text-warning], together with the classes
    of the verdict: [bi-star-fill] and [text-warning] when
    [favorited == true] holds, [bi-star] when it fails.  When the comparison
    throws, the icon keeps the classes it had. *)
Theorem response_sets_icon_classes M resp_data favorited w i e c :
  get_prop resp_data "favorited" = Some favorited →
  i ∈ favIcon M → document w !! i = Some e →
  c ∈ classes_of (document (toggleLike_after M (Fulfilled resp_data) w).2) i
  ↔ match loose_eq_true favorited with
    | Some verdict =>
        (c ∈ classes e ∧ c ∉ icon_classes) ∨ c ∈ verdict_classes verdict
    | None => c ∈ classes e
    end.
Proof.
  intros Hv Hi He.
  destruct (loose_eq_true favorited) as [verdict|] eqn:Hc.
  - rewrite (after_fulfilled M _ _ _ w Hv Hc).
    unfold verdict_classes, icon_classes.
    destruct verdict; cbn [snd document].
    + rewrite (classes_of_star _ _ _ _ He Hi).
      rewrite elem_of_add_tokens, elem_of_remove_tokens.
      rewrite !elem_of_cons, !elem_of_nil.
      destruct (decide (c = "bi-star-fill")), (decide (c = "text-warning"));
        tauto.
    + rewrite (classes_of_unstar _ _ _ _ He Hi).
      rewrite elem_of_add_tokens, elem_of_remove_tokens.
      rewrite !elem_of_cons, !elem_of_nil.
      destruct (decide (c = "bi-star")); tauto.
  - rewrite (after_uncomparable M _ _ w Hv Hc). cbn [snd].
    by rewrite (classes_of_lookup _ _ _ He).
Qed.

Lemma response_sets_icon_classes_witness :
  "bi" ∈ classes_of
           (document
              (toggleLike_after (load page)
                 (Fulfilled (JObj [("favorited", JBool true)]))
                 (world (start Axios1 page))).2) 3.
Proof.
  apply (response_sets_icon_classes (load page)
           (JObj [("favorited", JBool true)]) (JBool true)
           (world (start Axios1 page)) 3
           {| parent := Some 2; classes := ["fav-icon"; "bi"; "bi-star"];
              dataset := ∅ |} "bi").
  - reflexivity.
  - apply elem_of_select.
    change (classes_of page 3) with ["fav-icon"; "bi"; "bi-star"]. left.
  - reflexivity.
  - left. cbn [classes]. unfold icon_classes.
    rewrite !elem_of_cons, !elem_of_nil. split; [tauto|]. by intros [|[|[|]]].
Defined.

(** X10.  The edits are idempotent: a second response on which the
    comparison comes out as on the first (it holds, fails or throws) leaves
    the document exactly as the first left it, class order included. *)
Theorem same_verdict_twice_changes_nothing M d1 d2 v1 v2 w :
  get_prop d1 "favorited" = Some v1 →
  get_prop d2 "favorited" = Some v2 →
  loose_eq_true v1 = loose_eq_true v2 →
  let w1 := (toggleLike_after M (Fulfilled d1) w).2 in
  document (toggleLike_after M (Fulfilled d2) w1).2 = document w1.
Proof.
  intros H1 H2 Heq. cbv zeta.
  destruct (loose_eq_true v1) as [verdict|] eqn:Hc1.
  - rewrite (after_fulfilled M _ _ _ _ H2 (eq_sym Heq)),
      (after_fulfilled M _ _ _ w H1 Hc1).
    destruct verdict; cbn [snd document].
    + apply star_star.
    + apply unstar_unstar.
  - by rewrite (after_uncomparable M _ _ _ H2 (eq_sym Heq)).
Qed.

Lemma same_verdict_twice_changes_nothing_witness :
  let yes := Fulfilled (JObj [("favorited", JBool true)]) in
  let one := Fulfilled (JObj [("favorited", JNum "1")]) in
  let w1 := (toggleLike_after (load page) yes (world (start Axios1 page))).2 in
  document (toggleLike_after (load page) one w1).2 = document w1.
Proof.
  apply (same_verdict_twice_changes_nothing (load page)
           (JObj [("favorited", JBool true)]) (JObj [("favorited", JNum "1")])
           (JBool true) (JNum "1") (world (start Axios1 page))); reflexivity.
Defined.

(** ** The defaults of the client and missing data on the page *)

(** X11.  The handler writes one default header only: after a call the
    client's common defaults are those it had, with [X-CSRFToken] set to the
    token; every other default keeps its value. *)
Theorem other_default_headers_kept M evt w name :
  name ≠ "X-CSRFToken" →
  common (toggleLike M evt w).2 = <["X-CSRFToken" := csrf_of M w]> (common w)
  ∧ common (toggleLike M evt w).2 !! name = common w !! name.
Proof.
  intros Hne. rewrite toggleLike_run. cbn [snd common].
  split; [done|]. by apply lookup_insert_ne.
Qed.

Lemma other_default_headers_kept_witness :
  common (toggleLike (load page) {| evt_id := 0; target := 3 |}
            (world (start Axios1 page))).2 !! "Accept"
  = common (world (start Axios1 page)) !! "Accept".
Proof.
  destruct (other_default_headers_kept (load page)
              {| evt_id := 0; target := 3 |} (world (start Axios1 page))
              "Accept") as [_ H].
  - discriminate.
  - exact H.
Defined.

(** X12.  When the first favourite button carries no [csrf] datum, the
    handler stores [undefined] as the token.  Its requests still go out: a
    client of the 1.x line sends them without any [X-CSRFToken] header, a
    client of the 0.x line sends the text [undefined] as the token. *)
Theorem button_without_token M line doc0 before evt b e :
  head (favButton M) = Some b →
  doc0 !! b = Some e →
  dataset e !! "csrf" = None →
  let L := run M (start line doc0) before in
  common (world (step M L (Click evt))) !! "X-CSRFToken" = Some JUndefined
  ∧ (toggle_request M evt (world L) = None
     ↔ ToString (message_id_of evt (world L)) = None)
  ∧ ∀ req, toggle_request M evt (world L) = Some req →
           headers req !! "X-CSRFToken"
           = match line with
             | Axios1 => None
             | Axios0 => Some "undefined"
             end.
Proof.
  intros Hb He Hd L.
  assert (Htok : data "csrf" (favButton M) doc0 = JUndefined).
  { destruct (favButton M) as [|b' js]; [done|]. injection Hb as ->.
    unfold data. by rewrite He; simpl; rewrite Hd. }
  pose proof (run_fresh M line doc0 before) as HF. fold L in HF.
  destruct (fresh_like_reads M line doc0 L evt HF) as (Hcsrf & Hid & Hreq).
  rewrite Htok in Hcsrf.
  split; [|split].
  - rewrite world_step_click, toggleLike_run. cbn [snd common].
    rewrite Hcsrf. apply lookup_insert_eq.
  - rewrite Hreq, Hid, toggle_request_fresh, Htok.
    by destruct (ToString (message_id_of evt _)).
  - intros req. rewrite Hreq, toggle_request_fresh, Htok.
    destruct (ToString (message_id_of evt _)) as [id|]; [|done].
    cbn [mbind option_bind ToString]. intros [= <-]. cbn [headers].
    by destruct line; vm_compute.
Qed.

Lemma button_without_token_witness :
  let doc0 := [ {| parent := None; classes := ["like-form"];
                   dataset := {[ "message-id" := JNum "5" ]} |};
                {| parent := Some 0; classes := ["fav-button"]; dataset := ∅ |} ] in
  let L := run (load doc0) (start Axios0 doc0) [] in
  common (world (step (load doc0) L (Click {| evt_id := 0; target := 1 |})))
    !! "X-CSRFToken" = Some JUndefined.
Proof.
  destruct (button_without_token
              (load [ {| parent := None; classes := ["like-form"];
                         dataset := {[ "message-id" := JNum "5" ]} |};
                      {| parent := Some 0; classes := ["fav-button"];
                         dataset := ∅ |} ])
              Axios0
              [ {| parent := None; classes := ["like-form"];
                   dataset := {[ "message-id" := JNum "5" ]} |};
                {| parent := Some 0; classes := ["fav-button"]; dataset := ∅ |} ]
              [] {| evt_id := 0; target := 1 |} 1
              {| parent := Some 0; classes := ["fav-button"]; dataset := ∅ |})
    as (H & _).
  - by vm_compute.
  - reflexivity.
  - reflexivity.
  - cbv zeta. exact H.
Defined.

(** X13.  When the nearest [.like-form] carries no message id, the id is
    [undefined]; if the client's default headers can be sent, the request
    goes to [BASE_URL/messages/undefined/like]; an id on a form further out
    is not looked for. *)
Theorem form_without_id_posts_undefined M evt w f e :
  closest_node (document w) "like-form" (target evt) = Some f →
  document w !! f = Some e →
  dataset e !! "message-id" = None →
  sendable (client w) (<["X-CSRFToken" := csrf_of M w]> (common w)) →
  message_id_of evt w = JUndefined
  ∧ ∃ req, requests (toggleLike M evt w).2 = requests w ++ [req]
           ∧ url req = "http://localhost:5001/api/messages/undefined/like".
Proof.
  intros Hf He Hm Hs.
  assert (Hid : message_id_of evt w = JUndefined).
  { unfold message_id_of. rewrite closest_single, Hf. simpl.
    by rewrite He; simpl; rewrite Hm. }
  split; [done|]. eexists. split.
  - rewrite requests_after_click.
    rewrite (toggle_request_sends M evt w "undefined"); [done| |done].
    by rewrite Hid.
  - reflexivity.
Qed.

Lemma form_without_id_posts_undefined_witness :
  let doc0 := [ {| parent := None; classes := ["like-form"];
                   dataset := {[ "message-id" := JNum "5" ]} |};
                {| parent := Some 0; classes := ["like-form"]; dataset := ∅ |};
                {| parent := Some 1; classes := ["fav-button"]; dataset := ∅ |} ] in
  message_id_of {| evt_id := 0; target := 2 |} (world (start Axios1 doc0))
  = JUndefined.
Proof.
  destruct (form_without_id_posts_undefined
              (load [ {| parent := None; classes := ["like-form"];
                         dataset := {[ "message-id" := JNum "5" ]} |};
                      {| parent := Some 0; classes := ["like-form"]; dataset := ∅ |};
                      {| parent := Some 1; classes := ["fav-button"]; dataset := ∅ |} ])
              {| evt_id := 0; target := 2 |}
              (world (start Axios1
                 [ {| parent := None; classes := ["like-form"];
                      dataset := {[ "message-id" := JNum "5" ]} |};
                   {| parent := Some 0; classes := ["like-form"]; dataset := ∅ |};
                   {| parent := Some 1; classes := ["fav-button"]; dataset := ∅ |} ]))
              1 {| parent := Some 0; classes := ["like-form"]; dataset := ∅ |})
    as (H & _).
  - by vm_compute.
  - reflexivity.
  - reflexivity.
  - apply (bool_decide_unpack _). by vm_compute.
  - cbv zeta. exact H.
Defined.

Lemma select_none cls (doc : Document) :
  (∀ i, cls ∉ classes_of doc i) → select cls doc = [].
Proof.
  intros Hno. apply elem_of_nil_inv. intros i Hi.
  apply elem_of_select in Hi. by destruct (Hno i).
Qed.

Lemma run_lookup_other M line doc0 inputs i :
  i ∉ favIcon M →
  document (world (run M (start line doc0) inputs)) !! i = doc0 !! i.
Proof.
  intros Hi. pose proof (run_same_page M line doc0 inputs) as Hs.
  destruct (doc0 !! i) as [e0|] eqn:He0.
  - destruct Hs as [_ Hs]. destruct (Hs i e0 He0) as (e & -> & _ & Hout).
    by rewrite Hout.
  - by apply (same_page_lookup_None _ _ _ _ Hs).
Qed.

(** X14.  On a page without any [.fav-icon] the script never changes the
    document at all, whatever is clicked and whatever responses arrive. *)
Theorem no_icon_no_edit line doc0 inputs :
  (∀ i, "fav-icon" ∉ classes_of doc0 i) →
  document (world (run (load doc0) (start line doc0) inputs)) = doc0.
Proof.
  intros Hno. apply list_eq. intros i. apply run_lookup_other.
  unfold load. cbn [favIcon]. rewrite select_none by done. apply not_elem_of_nil.
Qed.

Lemma no_icon_no_edit_witness :
  let doc0 := [ {| parent := None; classes := ["fav-button"; "bi-star"];
                   dataset := ∅ |} ] in
  document (world (run (load doc0) (start Axios1 doc0)
                     [Click {| evt_id := 0; target := 0 |};
                      Settle 0 (Fulfilled (JObj [("favorited", JBool true)]))]))
  = doc0.
Proof.
  apply (no_icon_no_edit Axios1
           [ {| parent := None; classes := ["fav-button"; "bi-star"];
                dataset := ∅ |} ]).
  intros [|i].
  - change (classes_of _ 0) with ["fav-button"; "bi-star"].
    rewrite !elem_of_cons, elem_of_nil. by intros [|[|]].
  - change (classes_of _ (S i)) with (@nil string). by intros ?%elem_of_nil.
Defined.

(** ** The comparison *)

(** X15.  [favorited == true] is stricter than a truthiness test: whenever
    it holds, [favorited] is truthy, so the starred branch is never taken
    for [null], [undefined], [false], [0], [NaN] or the empty text. *)
Theorem loosely_true_is_truthy favorited :
  loose_eq_true favorited = Some true → ToBoolean favorited = true.
Proof.
  destruct favorited as [| |b|repr|s|items|props]; simpl; try done.
  - by intros [= ->].
  - intros [= ->%String.eqb_eq]. reflexivity.
  - destruct s; [|done]. by vm_compute.
Qed.

Lemma loosely_true_is_truthy_witness : ToBoolean (JStr " 1 ") = true.
Proof. apply loosely_true_is_truthy. by vm_compute. Defined.

(** ** Delivery of clicks to the listener *)

Section DispatchFacts.

Context (M : Script).
Implicit Types (L : Loop) (w : World) (evt : Event) (doc : Document).

Lemma path_from_ancestor fuel doc i a :
  a ∈ path_from fuel doc i → ancestor_or_self doc i a.
Proof.
  revert i. induction fuel as [|fuel IH]; intros i; simpl.
  - by intros ?%elem_of_nil.
  - destruct (doc !! i) as [e|] eqn:He; [|by intros ?%elem_of_nil].
    intros [->|Ha]%elem_of_cons; [by econstructor|].
    destruct (parent e) as [p|] eqn:Hp; [|by apply elem_of_nil in Ha].
    eapply anc_up; [done..|]. by apply IH.
Qed.




End DispatchFacts.

(** X16.  A click that passes no node of the module's button selection on
    its way to the root is not the script's business: the listener is not
    called, so nothing is sent, the default action is not suppressed and no
    handler is parked. *)
Theorem click_outside_buttons_ignored M evt L :
  (∀ a, ancestor_or_self (document (world L)) (target evt) a →
        a ∉ favButton M) →
  dispatch M evt L = L.
Proof.
  intros Hno. unfold dispatch, bound_on_path.
  assert (Hnil : filter (λ a, a ∈ favButton M)
                   (propagation_path (document (world L)) (target evt)) = []).
  { apply elem_of_nil_inv. intros a [Hb Hp]%list_elem_of_filter.
    apply path_from_ancestor in Hp. by destruct (Hno a Hp). }
  by rewrite Hnil.
Qed.

Lemma click_outside_buttons_ignored_witness :
  dispatch (load page) {| evt_id := 0; target := 7 |} (start Axios1 page)
  = start Axios1 page.
Proof.
  apply click_outside_buttons_ignored.
  intros a Ha. cbn [target document world start] in Ha.
  change (favButton (load page)) with [2; 5].
  inversion Ha as [i e He | i e p a' He Hp Ha']; subst.
  - rewrite !elem_of_cons, elem_of_nil. by intros [|[|]].
  - injection He as <-. injection Hp as <-.
    inversion Ha' as [i e He | i e p a' He Hp Ha'']; subst.
    + rewrite !elem_of_cons, elem_of_nil. by intros [|[|]].
    + injection He as <-. discriminate Hp.
Defined.





(** ** Where a conversion throws *)

(** X19.  When the message id found for a click cannot be converted to text
    (an object with an own [toString], say), the call suppresses the default
    action, prints its three lines and stores the token, and then throws:
    nothing is sent, no handler is parked, the document is as it was and the
    error is left unhandled. *)
Theorem unconvertible_id_sends_nothing M evt L :
  ToString (message_id_of evt (world L)) = None →
  let L1 := step M L (Click evt) in
  requests (world L1) = requests (world L)
  ∧ suspended L1 = suspended L
  ∧ unhandled L1 = unhandled L ++ [conversion_error]
  ∧ document (world L1) = document (world L)
  ∧ default_prevented (evt_id evt) (world L1)
  ∧ common (world L1) !! "X-CSRFToken" = Some (csrf_of M (world L))
  ∧ console (world L1)
    = console (world L)
      ++ [[JStr "This was toggled"];
          [JStr "This is the csrf:"; csrf_of M (world L)];
          [JStr "This is messageId"; message_id_of evt (world L)]].
Proof.
  intros Hid L1.
  assert (Hreq : toggle_request M evt (world L) = None)
    by (unfold toggle_request; by rewrite Hid).
  unfold L1. rewrite step_click, Hreq. cbn [world suspended unhandled].
  rewrite requests_after_click, Hreq, toggleLike_run, Hreq.
  cbn [snd document common ops option_list].
  rewrite !app_nil_r. unfold default_prevented, console. cbn [ops].
  repeat split.
  - apply elem_of_app. right. left.
  - apply lookup_insert_eq.
  - by rewrite omap_app.
Qed.

Lemma unconvertible_id_sends_nothing_witness :
  let L := start Axios1 odd_page in
  let L1 := step (load odd_page) L (Click {| evt_id := 0; target := 2 |}) in
  requests (world L1) = requests (world L)
  ∧ unhandled L1 = unhandled L ++ [conversion_error].
Proof.
  destruct (unconvertible_id_sends_nothing (load odd_page)
              {| evt_id := 0; target := 2 |} (start Axios1 odd_page))
    as (H1 & _ & H2 & _).
  - by vm_compute.
  - cbv zeta. split; [exact H1|exact H2].
Defined.

(** X20.  When [favorited] cannot be compared with [true] (an object with
    an own [toString], or an array holding one), the handler throws at the
    comparison: no class is edited, nothing else changes, and the error is
    left unhandled; the icons keep what the response before had set. *)
Theorem uncomparable_response_edits_nothing
    M line doc0 before evt req resp_data favorited :
  toggle_request M evt (world (run M (start line doc0) before)) = Some req →
  get_prop resp_data "favorited" = Some favorited →
  loose_eq_true favorited = None →
  let L := run M (start line doc0) before in
  let L1 := step M L (Click evt) in
  let L2 := step M L1 (Settle (length (requests (world L))) (Fulfilled resp_data)) in
  world L2 = world L1
  ∧ document (world L2) = document (world L)
  ∧ suspended L2 = suspended L
  ∧ unhandled L2 = unhandled L ++ [conversion_error].
Proof.
  intros Hreq Hv Hc L L1 L2.
  assert (HL : script_loop M doc0 L)
    by apply script_loop_run, script_loop_start.
  unfold L2, L1. rewrite (settle_newest M doc0 L evt _ req HL Hreq). cbv zeta.
  rewrite (after_uncomparable M _ _ _ Hv Hc).
  cbn [fst snd world suspended unhandled].
  split; [by rewrite world_step_click|]. by rewrite toggleLike_run.
Qed.

Lemma uncomparable_response_edits_nothing_witness :
  let L := run (load page) (start Axios1 page) [] in
  let L1 := step (load page) L (Click {| evt_id := 0; target := 6 |}) in
  let L2 := step (load page) L1
              (Settle (length (requests (world L)))
                 (Fulfilled (JObj [("favorited",
                                    JObj [("toString", JNum "1")])]))) in
  document (world L2) = document (world L)
  ∧ unhandled L2 = unhandled L ++ [conversion_error].
Proof.
  destruct (uncomparable_response_edits_nothing (load page) Axios1 page []
              {| evt_id := 0; target := 6 |}
              {| method := "POST";
                 url := "http://localhost:5001/api/messages/7/like";
                 body := None;
                 headers := {[ "Accept" := "application/json, text/plain, */*";
                               "X-CSRFToken" := "tok-A" ]} |}
              (JObj [("favorited", JObj [("toString", JNum "1")])])
              (JObj [("toString", JNum "1")]))
    as (_ & H1 & _ & H2).
  - by vm_compute.
  - reflexivity.
  - reflexivity.
  - cbv zeta. split; [exact H1|exact H2].
Defined.
